(** * LocalAI [api] package: the Profile Store and the completion endpoint

    A shallow embedding of [api/config.go] and [api/openai.go].

    - Go [int] is [Z] (the code never does arithmetic on the values it
      reads, apart from the loop counter [i < n]), [float64] is
      [spec_float], [string] is [string] read as a sequence of bytes.
    - [ConfigMerger] ([map[string]Config]) is a [gmap string Config.t]; the
      map holds struct values, so reading an entry copies it.
    - [[]string] for [StopWords] is a slice header over a heap of backing
      arrays, because [updateConfig] appends to it through a copy of a
      stored entry; [Cutstrings] and [TrimSpace] are only read and are
      lists.
    - The operating system, the YAML decoder, the model loader, the
      regular-expression engine and the inference engine are collaborators
      and enter as records of functions.
    - The handler is written in state-passing style over a [World]. *)

From Stdlib Require Import ZArith Ascii String Floats.SpecFloat.
From stdpp Require Import gmap strings list fin_maps.

Open Scope string_scope.
Open Scope list_scope.
Open Scope nat_scope.

(** ** Errors and outcomes *)

(** Go [error] values.  The two errors that [openAIEndpoint] builds itself
    have their own constructors; [Foreign] stands for an error value made
    by a collaborator, [Wrapped] for [fmt.Errorf(prefix ++ ": %w", err)]. *)
Inductive error : Type :=
  | Foreign (msg : string)
  | Wrapped (prefix : string) (e : error)
  | NoModelError
  | LoadModelConfigError (e : error).

(** [err.Error()] *)
Fixpoint Error (e : error) : string :=
  match e with
  | Foreign msg => msg
  | Wrapped prefix e' => prefix +:+ ": " +:+ Error e'
  | NoModelError => "no model specified"
  | LoadModelConfigError e' => "failed loading model config " +:+ Error e'
  end.

(** A Go [(T, error)] result. *)
Inductive result (A : Type) : Type :=
  | Success (a : A)
  | Failure (e : error).
Arguments Success {A} a.
Arguments Failure {A} e.

(** What a call can end in: a value, a returned error, or a run-time panic
    ([regexp.MustCompile] on a pattern that does not parse, or the
    dereference of a nil [*Config]). *)
Inductive outcome (A : Type) : Type :=
  | Ok (a : A)
  | Fail (e : error)
  | Panic.
Arguments Ok {A} a.
Arguments Fail {A} e.
Arguments Panic {A}.

Definition is_Ok {A} (o : outcome A) : bool :=
  match o with Ok _ => true | _ => false end.

(** ** float64 *)

(** [x != 0] on a [float64]: false on both zeros, true on everything else
    (NaN included). *)
Definition f64_nonzero (x : spec_float) : bool :=
  match x with
  | S754_zero _ => false
  | _ => true
  end.

Definition f64_zero : spec_float := S754_zero false.
(** The binary64 values nearest to 0.7 and 0.9. *)
Definition f64_0_7 : spec_float := S754_finite false 6305039478318694 (-53).
Definition f64_0_9 : spec_float := S754_finite false 8106479329266893 (-53).

(** ** The functions of package [strings] that the code calls *)

Module GoStrings.

Definition bytes (l : list nat) : string :=
  foldr (fun n s => String (ascii_of_nat n) s) "" l.

(** [s[len(p):]] when [p] is a prefix of [s]. *)
Fixpoint strip_prefix (p s : string) : option string :=
  match p, s with
  | EmptyString, _ => Some s
  | String a p', String b s' =>
      if Ascii.eqb a b then strip_prefix p' s' else None
  | String _ _, EmptyString => None
  end.

Definition HasPrefix (s p : string) : bool :=
  match strip_prefix p s with Some _ => true | None => false end.

Definition TrimPrefix (s p : string) : string :=
  match strip_prefix p s with Some s' => s' | None => s end.

Fixpoint Contains (s substr : string) : bool :=
  HasPrefix s substr
  || match s with
     | EmptyString => false
     | String _ s' => Contains s' substr
     end.

Fixpoint mem_byte (a : ascii) (cutset : string) : bool :=
  match cutset with
  | EmptyString => false
  | String b cs => Ascii.eqb a b || mem_byte a cs
  end.

(** [strings.TrimLeft] for a cutset of ASCII bytes (the only call passes
    the constant "Bearer "): leading bytes that occur in [cutset] go. *)
Fixpoint TrimLeft (s cutset : string) : string :=
  match s with
  | EmptyString => EmptyString
  | String a s' => if mem_byte a cutset then TrimLeft s' cutset else s
  end.

Definition Join (elems : list string) (sep : string) : string :=
  String.concat sep elems.

(** The UTF-8 encodings of the code points for which [unicode.IsSpace]
    holds: tab, LF, VT, FF, CR, space, U+0085, U+00A0, U+1680,
    U+2000..U+200A, U+2028, U+2029, U+202F, U+205F, U+3000.  No one is a
    prefix or a suffix of another, and an ill-formed sequence decodes to
    U+FFFD, which is not a space. *)
Definition space_encodings : list string :=
  map bytes
    [ [9]; [10]; [11]; [12]; [13]; [32];
      [194; 133]; [194; 160]; [225; 154; 128];
      [226; 128; 128]; [226; 128; 129]; [226; 128; 130]; [226; 128; 131];
      [226; 128; 132]; [226; 128; 133]; [226; 128; 134]; [226; 128; 135];
      [226; 128; 136]; [226; 128; 137]; [226; 128; 138];
      [226; 128; 168]; [226; 128; 169]; [226; 128; 175];
      [226; 129; 159]; [227; 128; 128] ].

Fixpoint strip_any (ps : list string) (s : string) : option string :=
  match ps with
  | [] => None
  | p :: ps' =>
      match strip_prefix p s with
      | Some s' => Some s'
      | None => strip_any ps' s
      end
  end.

Fixpoint trim_left_of (ps : list string) (fuel : nat) (s : string) : string :=
  match fuel with
  | O => s
  | S k =>
      match strip_any ps s with
      | Some s' => trim_left_of ps k s'
      | None => s
      end
  end.

Definition rev_string (s : string) : string :=
  string_of_list_ascii (rev (list_ascii_of_string s)).

Definition trim_left_space (s : string) : string :=
  trim_left_of space_encodings (String.length s) s.

Definition trim_right_space (s : string) : string :=
  rev_string
    (trim_left_of (map rev_string space_encodings) (String.length s)
       (rev_string s)).

(** [strings.TrimSpace]: leading, then trailing white space removed. *)
Definition TrimSpace (s : string) : string :=
  trim_right_space (trim_left_space s).

End GoStrings.

(** ** Slices of strings over a heap of backing arrays *)

Module Slice.

(** A slice header: the backing array, the length and the capacity. *)
Record t : Type := { arr : nat; len : nat; cap : nat }.

(** The [nil] slice. *)
Definition null : t := {| arr := 0; len := 0; cap := 0 |}.

Definition backing (h : gmap nat (list string)) (s : t) : list string :=
  default [] (h !! arr s).

(** The elements one sees through the header, [s[0:len(s)]]. *)
Definition elems (h : gmap nat (list string)) (s : t) : list string :=
  take (len s) (backing h s).

(** Headers that Go can produce: the length is within the capacity and
    the backing array has the [cap s] cells.  The [nil] slice has no
    array and needs none. *)
Definition wf (h : gmap nat (list string)) (s : t) : Prop :=
  len s <= cap s /\ cap s <= length (backing h s).

(** [append(s, v)].  With room left the cell after the last element of
    the backing array is overwritten in place; otherwise the elements
    move to a new array.  How much room the run time leaves in a new
    array is its own business: [spare] gives it from the old capacity. *)
Definition append (spare : nat -> nat) (h : gmap nat (list string))
    (s : t) (v : string) : t * gmap nat (list string) :=
  if (len s <? cap s)%nat then
    ({| arr := arr s; len := S (len s); cap := cap s |},
     <[arr s := <[len s := v]> (backing h s)]> h)
  else
    let a := fresh (dom h) in
    let k := spare (cap s) in
    ({| arr := a; len := S (len s); cap := S (len s) + k |},
     <[a := elems h s ++ v :: replicate k ""]> h).

End Slice.

(** ** The request and the profile records *)

Record Message : Type := { Role : string; Content : string }.

Module OpenAIRequest.

Record t : Type := {
  Model : string;
  Prompt : string;
  Stop : string;
  Messages : list Message;
  Echo : bool;
  TopP : spec_float;
  TopK : Z;
  Temperature : spec_float;
  Maxtokens : Z;
  N : Z;
  Batch : Z;
  F16 : bool;
  IgnoreEOS : bool;
  RepeatPenalty : spec_float;
  Keep : Z;
  Seed : Z
}.

(** The zero value [OpenAIRequest{}]. *)
Definition zero : t :=
  {| Model := ""; Prompt := ""; Stop := ""; Messages := []; Echo := false;
     TopP := f64_zero; TopK := 0; Temperature := f64_zero; Maxtokens := 0;
     N := 0; Batch := 0; F16 := false; IgnoreEOS := false;
     RepeatPenalty := f64_zero; Keep := 0; Seed := 0 |}.

(** Field assignments [r.F = v]. *)
Definition set_Echo (v : bool) (r : t) : t :=
  {| Model := Model r; Prompt := Prompt r; Stop := Stop r;
     Messages := Messages r; Echo := v; TopP := TopP r; TopK := TopK r;
     Temperature := Temperature r; Maxtokens := Maxtokens r; N := N r;
     Batch := Batch r; F16 := F16 r; IgnoreEOS := IgnoreEOS r;
     RepeatPenalty := RepeatPenalty r; Keep := Keep r; Seed := Seed r |}.
Definition set_TopK (v : Z) (r : t) : t :=
  {| Model := Model r; Prompt := Prompt r; Stop := Stop r;
     Messages := Messages r; Echo := Echo r; TopP := TopP r; TopK := v;
     Temperature := Temperature r; Maxtokens := Maxtokens r; N := N r;
     Batch := Batch r; F16 := F16 r; IgnoreEOS := IgnoreEOS r;
     RepeatPenalty := RepeatPenalty r; Keep := Keep r; Seed := Seed r |}.
Definition set_TopP (v : spec_float) (r : t) : t :=
  {| Model := Model r; Prompt := Prompt r; Stop := Stop r;
     Messages := Messages r; Echo := Echo r; TopP := v; TopK := TopK r;
     Temperature := Temperature r; Maxtokens := Maxtokens r; N := N r;
     Batch := Batch r; F16 := F16 r; IgnoreEOS := IgnoreEOS r;
     RepeatPenalty := RepeatPenalty r; Keep := Keep r; Seed := Seed r |}.
Definition set_Temperature (v : spec_float) (r : t) : t :=
  {| Model := Model r; Prompt := Prompt r; Stop := Stop r;
     Messages := Messages r; Echo := Echo r; TopP := TopP r; TopK := TopK r;
     Temperature := v; Maxtokens := Maxtokens r; N := N r;
     Batch := Batch r; F16 := F16 r; IgnoreEOS := IgnoreEOS r;
     RepeatPenalty := RepeatPenalty r; Keep := Keep r; Seed := Seed r |}.
Definition set_Maxtokens (v : Z) (r : t) : t :=
  {| Model := Model r; Prompt := Prompt r; Stop := Stop r;
     Messages := Messages r; Echo := Echo r; TopP := TopP r; TopK := TopK r;
     Temperature := Temperature r; Maxtokens := v; N := N r;
     Batch := Batch r; F16 := F16 r; IgnoreEOS := IgnoreEOS r;
     RepeatPenalty := RepeatPenalty r; Keep := Keep r; Seed := Seed r |}.
Definition set_RepeatPenalty (v : spec_float) (r : t) : t :=
  {| Model := Model r; Prompt := Prompt r; Stop := Stop r;
     Messages := Messages r; Echo := Echo r; TopP := TopP r; TopK := TopK r;
     Temperature := Temperature r; Maxtokens := Maxtokens r; N := N r;
     Batch := Batch r; F16 := F16 r; IgnoreEOS := IgnoreEOS r;
     RepeatPenalty := v; Keep := Keep r; Seed := Seed r |}.
Definition set_Keep (v : Z) (r : t) : t :=
  {| Model := Model r; Prompt := Prompt r; Stop := Stop r;
     Messages := Messages r; Echo := Echo r; TopP := TopP r; TopK := TopK r;
     Temperature := Temperature r; Maxtokens := Maxtokens r; N := N r;
     Batch := Batch r; F16 := F16 r; IgnoreEOS := IgnoreEOS r;
     RepeatPenalty := RepeatPenalty r; Keep := v; Seed := Seed r |}.
Definition set_Batch (v : Z) (r : t) : t :=
  {| Model := Model r; Prompt := Prompt r; Stop := Stop r;
     Messages := Messages r; Echo := Echo r; TopP := TopP r; TopK := TopK r;
     Temperature := Temperature r; Maxtokens := Maxtokens r; N := N r;
     Batch := v; F16 := F16 r; IgnoreEOS := IgnoreEOS r;
     RepeatPenalty := RepeatPenalty r; Keep := Keep r; Seed := Seed r |}.
Definition set_IgnoreEOS (v : bool) (r : t) : t :=
  {| Model := Model r; Prompt := Prompt r; Stop := Stop r;
     Messages := Messages r; Echo := Echo r; TopP := TopP r; TopK := TopK r;
     Temperature := Temperature r; Maxtokens := Maxtokens r; N := N r;
     Batch := Batch r; F16 := F16 r; IgnoreEOS := v;
     RepeatPenalty := RepeatPenalty r; Keep := Keep r; Seed := Seed r |}.
Definition set_Seed (v : Z) (r : t) : t :=
  {| Model := Model r; Prompt := Prompt r; Stop := Stop r;
     Messages := Messages r; Echo := Echo r; TopP := TopP r; TopK := TopK r;
     Temperature := Temperature r; Maxtokens := Maxtokens r; N := N r;
     Batch := Batch r; F16 := F16 r; IgnoreEOS := IgnoreEOS r;
     RepeatPenalty := RepeatPenalty r; Keep := Keep r; Seed := v |}.

End OpenAIRequest.

Record TemplateConfig : Type := { Completion : string; Chat : string }.

Module Config.

(** [Config] embeds [OpenAIRequest] and also declares a field [F16] of
    its own.  Go resolves the selector [config.F16] to the shallowest
    field, the one declared here; the selectors [config.Echo],
    [config.TopK], [config.Model] and the like reach into the embedded
    record. *)
Record t : Type := {
  OpenAIRequest : OpenAIRequest.t;
  Name : string;
  Path : string;
  StopWords : Slice.t;
  Cutstrings : list string;
  TrimSpace : list string;
  ContextSize : Z;
  F16 : bool;
  Threads : Z;
  Debug : bool;
  Roles : gmap string string;
  TemplateConfig : TemplateConfig
}.

(** [Config{OpenAIRequest: r}]: every other field at its zero value. *)
Definition of_request (r : OpenAIRequest.t) : t :=
  {| OpenAIRequest := r; Name := ""; Path := ""; StopWords := Slice.null;
     Cutstrings := []; TrimSpace := []; ContextSize := 0; F16 := false;
     Threads := 0; Debug := false; Roles := ∅;
     TemplateConfig := {| Completion := ""; Chat := "" |} |}.

Definition set_OpenAIRequest (v : OpenAIRequest.t) (c : t) : t :=
  {| OpenAIRequest := v; Name := Name c; Path := Path c;
     StopWords := StopWords c; Cutstrings := Cutstrings c;
     TrimSpace := TrimSpace c; ContextSize := ContextSize c; F16 := F16 c;
     Threads := Threads c; Debug := Debug c; Roles := Roles c;
     TemplateConfig := TemplateConfig c |}.
Definition set_StopWords (v : Slice.t) (c : t) : t :=
  {| OpenAIRequest := OpenAIRequest c; Name := Name c; Path := Path c;
     StopWords := v; Cutstrings := Cutstrings c;
     TrimSpace := TrimSpace c; ContextSize := ContextSize c; F16 := F16 c;
     Threads := Threads c; Debug := Debug c; Roles := Roles c;
     TemplateConfig := TemplateConfig c |}.
Definition set_F16 (v : bool) (c : t) : t :=
  {| OpenAIRequest := OpenAIRequest c; Name := Name c; Path := Path c;
     StopWords := StopWords c; Cutstrings := Cutstrings c;
     TrimSpace := TrimSpace c; ContextSize := ContextSize c; F16 := v;
     Threads := Threads c; Debug := Debug c; Roles := Roles c;
     TemplateConfig := TemplateConfig c |}.
Definition set_Threads (v : Z) (c : t) : t :=
  {| OpenAIRequest := OpenAIRequest c; Name := Name c; Path := Path c;
     StopWords := StopWords c; Cutstrings := Cutstrings c;
     TrimSpace := TrimSpace c; ContextSize := ContextSize c; F16 := F16 c;
     Threads := v; Debug := Debug c; Roles := Roles c;
     TemplateConfig := TemplateConfig c |}.
Definition set_ContextSize (v : Z) (c : t) : t :=
  {| OpenAIRequest := OpenAIRequest c; Name := Name c; Path := Path c;
     StopWords := StopWords c; Cutstrings := Cutstrings c;
     TrimSpace := TrimSpace c; ContextSize := v; F16 := F16 c;
     Threads := Threads c; Debug := Debug c; Roles := Roles c;
     TemplateConfig := TemplateConfig c |}.

(** Assignment through a promoted selector, [c.F = v] for a field [F] of
    the embedded request. *)
Definition upd (f : OpenAIRequest.t -> OpenAIRequest.t) (c : t) : t :=
  set_OpenAIRequest (f (OpenAIRequest c)) c.

(** Reading through a promoted selector. *)
Definition Echo (c : t) : bool := OpenAIRequest.Echo (OpenAIRequest c).
Definition Model (c : t) : string := OpenAIRequest.Model (OpenAIRequest c).
Definition TopK (c : t) : Z := OpenAIRequest.TopK (OpenAIRequest c).
Definition TopP (c : t) : spec_float := OpenAIRequest.TopP (OpenAIRequest c).
Definition Temperature (c : t) : spec_float :=
  OpenAIRequest.Temperature (OpenAIRequest c).
Definition Maxtokens (c : t) : Z := OpenAIRequest.Maxtokens (OpenAIRequest c).
Definition RepeatPenalty (c : t) : spec_float :=
  OpenAIRequest.RepeatPenalty (OpenAIRequest c).
Definition Keep (c : t) : Z := OpenAIRequest.Keep (OpenAIRequest c).
Definition Batch (c : t) : Z := OpenAIRequest.Batch (OpenAIRequest c).
Definition IgnoreEOS (c : t) : bool :=
  OpenAIRequest.IgnoreEOS (OpenAIRequest c).
Definition Seed (c : t) : Z := OpenAIRequest.Seed (OpenAIRequest c).

End Config.

(** ** [defaultRequest] and [updateConfig] (openai.go, 84-140) *)

Definition defaultRequest (modelFile : string) : OpenAIRequest.t :=
  {| OpenAIRequest.Model := modelFile;
     OpenAIRequest.Prompt := "";
     OpenAIRequest.Stop := "";
     OpenAIRequest.Messages := [];
     OpenAIRequest.Echo := false;
     OpenAIRequest.TopP := f64_0_7;
     OpenAIRequest.TopK := 80;
     OpenAIRequest.Temperature := f64_0_9;
     OpenAIRequest.Maxtokens := 512;
     OpenAIRequest.N := 0;
     OpenAIRequest.Batch := 0;
     OpenAIRequest.F16 := false;
     OpenAIRequest.IgnoreEOS := false;
     OpenAIRequest.RepeatPenalty := f64_zero;
     OpenAIRequest.Keep := 0;
     OpenAIRequest.Seed := 0 |}.

(** [if cond { config = f config }] *)
Definition when {A} (cond : bool) (f : A -> A) (a : A) : A :=
  if cond then f a else a.

Definition nonzero (z : Z) : bool := negb (z =? 0)%Z.
Definition nonempty (s : string) : bool := negb (String.eqb s "").

Section UpdateConfig.

(** The run time's growth policy for [append]. *)
Variable spare : nat -> nat.

(** [updateConfig(config, input)]: the record behind [config] and the
    heap after the call.  The assignments come in the order of the
    source. *)
Definition updateConfig (config : Config.t) (h : gmap nat (list string))
    (input : OpenAIRequest.t) : Config.t * gmap nat (list string) :=
  let c := when (OpenAIRequest.Echo input)
             (Config.upd (OpenAIRequest.set_Echo (OpenAIRequest.Echo input)))
             config in
  let c := when (nonzero (OpenAIRequest.TopK input))
             (Config.upd (OpenAIRequest.set_TopK (OpenAIRequest.TopK input)))
             c in
  let c := when (f64_nonzero (OpenAIRequest.TopP input))
             (Config.upd (OpenAIRequest.set_TopP (OpenAIRequest.TopP input)))
             c in
  let c := when (f64_nonzero (OpenAIRequest.Temperature input))
             (Config.upd
                (OpenAIRequest.set_Temperature
                   (OpenAIRequest.Temperature input)))
             c in
  let c := when (nonzero (OpenAIRequest.Maxtokens input))
             (Config.upd
                (OpenAIRequest.set_Maxtokens (OpenAIRequest.Maxtokens input)))
             c in
  let '(c, h) :=
    if nonempty (OpenAIRequest.Stop input) then
      let '(s, h') :=
        Slice.append spare h (Config.StopWords c) (OpenAIRequest.Stop input)
      in (Config.set_StopWords s c, h')
    else (c, h) in
  let c := when (f64_nonzero (OpenAIRequest.RepeatPenalty input))
             (Config.upd
                (OpenAIRequest.set_RepeatPenalty
                   (OpenAIRequest.RepeatPenalty input)))
             c in
  let c := when (nonzero (OpenAIRequest.Keep input))
             (Config.upd (OpenAIRequest.set_Keep (OpenAIRequest.Keep input)))
             c in
  let c := when (nonzero (OpenAIRequest.Batch input))
             (Config.upd (OpenAIRequest.set_Batch (OpenAIRequest.Batch input)))
             c in
  let c := when (OpenAIRequest.F16 input)
             (Config.set_F16 (OpenAIRequest.F16 input)) c in
  let c := when (OpenAIRequest.IgnoreEOS input)
             (Config.upd
                (OpenAIRequest.set_IgnoreEOS (OpenAIRequest.IgnoreEOS input)))
             c in
  let c := when (nonzero (OpenAIRequest.Seed input))
             (Config.upd (OpenAIRequest.set_Seed (OpenAIRequest.Seed input)))
             c in
  (c, h).

End UpdateConfig.

(** ** Collaborators *)

(** The operating system and the YAML decoder, as far as [config.go] and
    the handler use them.  The decoder allocates the slices of the records
    it returns, so it takes the heap and hands back the extended one.  The
    list of a multi-profile file is a [[]*Config]: an entry is a record or,
    for a [null] in the file, the nil pointer ([None]). *)
Record System : Type := {
  os_ReadFile : string -> result string;
  (** [os.Stat(p)] returned no error *)
  os_Stat : string -> bool;
  (** [ioutil.ReadDir]: the names of the entries, sorted *)
  ioutil_ReadDir : string -> result (list string);
  filepath_Join : string -> string -> string;
  (** [yaml.Unmarshal(f, c)] for [c : *Config] *)
  yaml_Unmarshal_Config :
    string -> gmap nat (list string) ->
    result (Config.t * gmap nat (list string));
  (** [yaml.Unmarshal(f, c)] for [c : *ConfigFile]; the result is
      [c.Configs] *)
  yaml_Unmarshal_ConfigFile :
    string -> gmap nat (list string) ->
    result (list (option Config.t) * gmap nat (list string))
}.

(** [model.ModelLoader] *)
Record ModelLoader : Type := {
  ModelPath : string;
  ExistsInModelPath : string -> bool;
  (** the two values [ListModels] returns *)
  ListModels : list string * option error;
  (** [TemplatePrefix(templateFile, struct{Input string}{Input: in})] *)
  TemplatePrefix : string -> string -> result string
}.

(** Package [regexp]: [MustCompile] panics where [Compile] is [None];
    [ReplaceAllString re src repl]. *)
Record Regexp (RE : Type) : Type := {
  Compile : string -> option RE;
  ReplaceAllString : RE -> string -> string -> string
}.
Arguments Compile {RE} _ _.
Arguments ReplaceAllString {RE} _ _ _ _.

(** The closure that [ModelInference] returns: each call yields a
    prediction or an error and moves the engine on. *)
Definition PredFunc (St : Type) : Type := St -> result string * St.

(** ** config.go *)

Section ConfigGo.

Variable sys : System.

(** [ReadConfigFile] (40-51) *)
Definition ReadConfigFile (file : string) (h : gmap nat (list string))
    : result (list (option Config.t) * gmap nat (list string)) :=
  match os_ReadFile sys file with
  | Failure err => Failure (Wrapped "cannot read config file" err)
  | Success f =>
      match yaml_Unmarshal_ConfigFile sys f h with
      | Failure err => Failure (Wrapped "cannot unmarshal config file" err)
      | Success c => Success c
      end
  end.

(** [ReadConfig] (53-64) *)
Definition ReadConfig (file : string) (h : gmap nat (list string))
    : result (Config.t * gmap nat (list string)) :=
  match os_ReadFile sys file with
  | Failure err => Failure (Wrapped "cannot read config file" err)
  | Success f =>
      match yaml_Unmarshal_Config sys f h with
      | Failure err => Failure (Wrapped "cannot unmarshal config file" err)
      | Success c => Success c
      end
  end.

(** The methods of [ConfigMerger] update the map in place; here they
    return the error (if any), the map and the heap after the call. *)

(** [cm.LoadConfigFile(file)] (66-74) *)
Definition LoadConfigFile (cm : gmap string Config.t)
    (h : gmap nat (list string)) (file : string)
    : option error * gmap string Config.t * gmap nat (list string) :=
  match ReadConfig file h with
  | Failure err => (Some (Wrapped "cannot read config file" err), cm, h)
  | Success (c, h') => (None, <[Config.Name c := c]> cm, h')
  end.

(** The loop of [LoadConfig] (82-84): [cm[cc.Name] = *cc] for one entry
    after the other.  On a nil entry the dereference panics; the entries
    before it are in the map by then. *)
Fixpoint LoadConfig_range (cm : gmap string Config.t)
    (configs : list (option Config.t))
    : outcome unit * gmap string Config.t :=
  match configs with
  | [] => (Ok tt, cm)
  | Some cc :: configs' =>
      LoadConfig_range (<[Config.Name cc := cc]> cm) configs'
  | None :: _ => (Panic, cm)
  end.

(** [cm.LoadConfig(file)] (76-86): the call returns nil ([Ok]), returns an
    error, or panics. *)
Definition LoadConfig (cm : gmap string Config.t)
    (h : gmap nat (list string)) (file : string)
    : outcome unit * gmap string Config.t * gmap nat (list string) :=
  match ReadConfigFile file h with
  | Failure err => (Fail (Wrapped "cannot read config file" err), cm, h)
  | Success (configs, h') =>
      let r := LoadConfig_range cm configs in (fst r, snd r, h')
  end.

(** One turn of the loop of [LoadConfigs] (94-103). *)
Definition LoadConfigs_step (path : string)
    (st : gmap string Config.t * gmap nat (list string)) (name : string)
    : gmap string Config.t * gmap nat (list string) :=
  if negb (GoStrings.Contains name ".yaml") then st
  else
    match ReadConfig (filepath_Join sys path name) (snd st) with
    | Success (c, h') => (<[Config.Name c := c]> (fst st), h')
    | Failure _ => st
    end.

(** [cm.LoadConfigs(path)] (88-106) *)
Definition LoadConfigs (cm : gmap string Config.t)
    (h : gmap nat (list string)) (path : string)
    : option error * gmap string Config.t * gmap nat (list string) :=
  match ioutil_ReadDir sys path with
  | Failure err => (Some err, cm, h)
  | Success files =>
      let st := foldl (LoadConfigs_step path) (cm, h) files in
      (None, fst st, snd st)
  end.

(** A load operation of the Profile Store, and a sequence of them run
    one after the other on the Store as the one before left it, whatever
    that one ended in (a [loadMulti] that panicked too, as for a caller
    that recovers). *)
Inductive load_op : Type :=
  | loadOne (file : string)
  | loadMulti (file : string)
  | loadDirectory (path : string).

Definition run_load (st : gmap string Config.t * gmap nat (list string))
    (op : load_op) : gmap string Config.t * gmap nat (list string) :=
  match op with
  | loadOne file =>
      let r := LoadConfigFile (fst st) (snd st) file in (snd (fst r), snd r)
  | loadMulti file =>
      let r := LoadConfig (fst st) (snd st) file in (snd (fst r), snd r)
  | loadDirectory path =>
      let r := LoadConfigs (fst st) (snd st) path in (snd (fst r), snd r)
  end.

Definition run_loads (ops : list load_op)
    (st : gmap string Config.t * gmap nat (list string))
    : gmap string Config.t * gmap nat (list string) :=
  foldl run_load st ops.

End ConfigGo.

(** ** openai.go: the response records *)

Module Choice.
Record t : Type := {
  Index : Z;
  FinishReason : string;
  Message : option Message;
  Text : string
}.
End Choice.

Module OpenAIResponse.
Record t : Type := {
  Created : Z;
  Object : string;
  ID : string;
  Model : string;
  Choices : list Choice.t
}.
End OpenAIResponse.

(** What the handler reads from its [*fiber.Ctx]. *)
Record Ctx : Type := {
  (** [c.BodyParser(input)] on a fresh [OpenAIRequest] *)
  BodyParser : result OpenAIRequest.t;
  (** [c.Get(key)] *)
  Get : string -> string
}.

(** The state a request runs in: the Profile Store [cm] with the heap of
    its slices, the package variable [cutstrings] (the pattern cache), and
    the state of the inference engine. *)
Record World (RE St : Type) : Type := {
  cm : gmap string Config.t;
  heap : gmap nat (list string);
  cutstrings : gmap string RE;
  engine : St
}.
Arguments cm {RE St} _.
Arguments heap {RE St} _.
Arguments cutstrings {RE St} _.
Arguments engine {RE St} _.

Definition LF : string := String (ascii_of_nat 10) "".

(** The response of lines 297-300. *)
Definition response (input : OpenAIRequest.t) (choices : list Choice.t)
    : OpenAIResponse.t :=
  {| OpenAIResponse.Created := 0; OpenAIResponse.Object := "";
     OpenAIResponse.ID := "";
     OpenAIResponse.Model := OpenAIRequest.Model input;
     OpenAIResponse.Choices := choices |}.

(** ** openai.go: [openAIEndpoint] (146-302), stage by stage *)

Section OpenAIEndpoint.

Context {RE St : Type}.
Variable sys : System.
Variable loader : ModelLoader.
Variable regexp : Regexp RE.
(** [ModelInference(predInput, loader, *config)] *)
Variable ModelInference :
  string -> Config.t -> gmap nat (list string) -> St ->
  result (PredFunc St) * St.
Variable spare : nat -> nat.

(** Lines 154-178: the model the request runs on. *)
Definition selectModel (input : OpenAIRequest.t) (authorization : string)
    : result string :=
  let modelFile := OpenAIRequest.Model input in
  let bearer := GoStrings.TrimLeft authorization "Bearer " in
  let bearerExists := nonempty bearer && ExistsInModelPath loader bearer in
  let r :=
    if String.eqb modelFile "" && negb bearerExists then
      match fst (ListModels loader) with
      | m :: _ => Success m
      | [] => Failure NoModelError
      end
    else Success modelFile in
  match r with
  | Failure err => Failure err
  | Success modelFile =>
      Success (if bearerExists then bearer else modelFile)
  end.

(** Lines 180-186: the companion file of the model, when there is one. *)
Definition loadCompanion (modelFile : string) (w : World RE St)
    : outcome unit * World RE St :=
  let modelConfig :=
    filepath_Join sys (ModelPath loader) (modelFile +:+ ".yaml") in
  if os_Stat sys modelConfig then
    let '(r, cm', h') := LoadConfig sys (cm w) (heap w) modelConfig in
    (match r with
     | Ok _ => Ok tt
     | Fail err => Fail (LoadModelConfigError err)
     | Panic => Panic
     end,
     {| cm := cm'; heap := h'; cutstrings := cutstrings w;
        engine := engine w |})
  else (Ok tt, w).

(** Lines 188-196: a copy of the stored profile, or the default one. *)
Definition startConfig (store : gmap string Config.t) (modelFile : string)
    : Config.t :=
  match store !! modelFile with
  | Some cfg => cfg
  | None => Config.of_request (defaultRequest modelFile)
  end.

(** Lines 201-209: the values the server forces. *)
Definition forceServerValues (threads ctx : Z) (f16 : bool)
    (config : Config.t) : Config.t :=
  let c := when (nonzero threads) (Config.set_Threads threads) config in
  let c := when (nonzero ctx) (Config.set_ContextSize ctx) c in
  when f16 (Config.set_F16 true) c.

(** Lines 188-209 on a given store and heap. *)
Definition mergeConfig (threads ctx : Z) (f16 : bool)
    (store : gmap string Config.t) (h : gmap nat (list string))
    (modelFile : string) (input : OpenAIRequest.t)
    : Config.t * gmap nat (list string) :=
  let '(config, h') :=
    updateConfig spare (startConfig store modelFile) h input in
  (forceServerValues threads ctx f16 config, h').

(** Lines 154-209: from the parsed request to [config]. *)
Definition resolveConfig (threads ctx : Z) (f16 : bool)
    (input : OpenAIRequest.t) (authorization : string) (w : World RE St)
    : outcome Config.t * World RE St :=
  match selectModel input authorization with
  | Failure err => (Fail err, w)
  | Success modelFile =>
      match loadCompanion modelFile w with
      | (Fail err, w1) => (Fail err, w1)
      | (Panic, w1) => (Panic, w1)
      | (Ok _, w1) =>
          let '(config, h') :=
            mergeConfig threads ctx f16 (cm w1) (heap w1) modelFile input in
          (Ok config,
           {| cm := cm w1; heap := h'; cutstrings := cutstrings w1;
              engine := engine w1 |})
      end
  end.

(** Lines 213-227: the text to predict from. *)
Definition chatLine (config : Config.t) (i : Message) : string :=
  let r := default "" (Config.Roles config !! Role i) in
  let r := if String.eqb r "" then Role i else r in
  r +:+ " " +:+ Content i.

Definition buildInput (chat : bool) (config : Config.t)
    (input : OpenAIRequest.t) : string :=
  if chat then
    GoStrings.Join (map (chatLine config) (OpenAIRequest.Messages input)) LF
  else OpenAIRequest.Prompt input.

(** Lines 229-236: the template to look for. *)
Definition templateFile (chat : bool) (config : Config.t) : string :=
  let t := Config.Model config in
  let t :=
    if nonempty (Chat (Config.TemplateConfig config)) && chat
    then Chat (Config.TemplateConfig config) else t in
  if nonempty (Completion (Config.TemplateConfig config)) && negb chat
  then Completion (Config.TemplateConfig config) else t.

(** Lines 239-245: expand the template, or keep the input as it is. *)
Definition applyTemplate (chat : bool) (config : Config.t)
    (predInput : string) : string :=
  match TemplatePrefix loader (templateFile chat config) predInput with
  | Success templatedInput => templatedInput
  | Failure _ => predInput
  end.

(** Lines 271-280: the cut strings, through the pattern cache.  [None]
    is the panic of [regexp.MustCompile]. *)
Fixpoint cutAll (cs : list string) (cache : gmap string RE)
    (prediction : string) : option string * gmap string RE :=
  match cs with
  | [] => (Some prediction, cache)
  | c :: cs' =>
      match cache !! c with
      | Some reg =>
          cutAll cs' cache (ReplaceAllString regexp reg prediction "")
      | None =>
          match Compile regexp c with
          | None => (None, cache)
          | Some reg =>
              cutAll cs' (<[c := reg]> cache)
                (ReplaceAllString regexp reg prediction "")
          end
      end
  end.

(** Lines 282-284 *)
Definition trimAll (cs : list string) (prediction : string) : string :=
  foldl (fun p c => GoStrings.TrimSpace (GoStrings.TrimPrefix p c))
    prediction cs.

(** Lines 271-284: what happens to a text after the echo. *)
Definition cleanup (config : Config.t) (cache : gmap string RE)
    (prediction : string) : option string * gmap string RE :=
  match cutAll (Config.Cutstrings config) cache prediction with
  | (Some p, cache') => (Some (trimAll (Config.TrimSpace config) p), cache')
  | (None, cache') => (None, cache')
  end.

(** Lines 267-284: one prediction on its way to a choice. *)
Definition postProcess (config : Config.t) (predInput : string)
    (cache : gmap string RE) (prediction : string)
    : option string * gmap string RE :=
  cleanup config cache
    (if Config.Echo config then predInput +:+ prediction else prediction).

(** Lines 286-290 *)
Definition mkChoice (chat : bool) (prediction : string) : Choice.t :=
  if chat then
    {| Choice.Index := 0; Choice.FinishReason := "";
       Choice.Message :=
         Some {| Role := "assistant"; Content := prediction |};
       Choice.Text := "" |}
  else
    {| Choice.Index := 0; Choice.FinishReason := "";
       Choice.Message := None; Choice.Text := prediction |}.

(** Lines 261-291: [k] is the number of turns still to run, that is the
    number of [i] left with [i < n]. *)
Fixpoint sampleLoop (chat : bool) (config : Config.t) (predInput : string)
    (predFunc : PredFunc St) (k : nat) (result : list Choice.t)
    (cache : gmap string RE) (s : St)
    : outcome (list Choice.t) * gmap string RE * St :=
  match k with
  | O => (Ok result, cache, s)
  | S k' =>
      match predFunc s with
      | (Failure err, s') => (Fail err, cache, s')
      | (Success prediction, s') =>
          match postProcess config predInput cache prediction with
          | (None, cache') => (Panic, cache', s')
          | (Some p, cache') =>
              sampleLoop chat config predInput predFunc k'
                (result ++ [mkChoice chat p]) cache' s'
          end
      end
  end.

(** Lines 249-253 *)
Definition sampleCount (input : OpenAIRequest.t) : Z :=
  if (OpenAIRequest.N input =? 0)%Z then 1%Z else OpenAIRequest.N input.

(** Lines 261-300 once [predFunc] is there: the loop and the response. *)
Definition sample (chat : bool) (config : Config.t) (predInput : string)
    (input : OpenAIRequest.t) (predFunc : PredFunc St)
    (cache : gmap string RE) (s : St)
    : outcome OpenAIResponse.t * gmap string RE * St :=
  match sampleLoop chat config predInput predFunc
          (Z.to_nat (sampleCount input)) [] cache s with
  | (Ok result, cache', s') => (Ok (response input result), cache', s')
  | (Fail err, cache', s') => (Fail err, cache', s')
  | (Panic, cache', s') => (Panic, cache', s')
  end.

(** Lines 247-300: [ModelInference], the loop and the response. *)
Definition predict (chat : bool) (config : Config.t) (predInput : string)
    (input : OpenAIRequest.t) (w : World RE St)
    : outcome OpenAIResponse.t * World RE St :=
  match ModelInference predInput config (heap w) (engine w) with
  | (Failure err, s') =>
      (Fail err,
       {| cm := cm w; heap := heap w; cutstrings := cutstrings w;
          engine := s' |})
  | (Success predFunc, s') =>
      let '(r, cache', s'') :=
        sample chat config predInput input predFunc (cutstrings w) s' in
      (r, {| cm := cm w; heap := heap w; cutstrings := cache';
             engine := s'' |})
  end.

(** The handler that [openAIEndpoint(cm, chat, debug, loader, threads,
    ctx, f16)] returns, run on a request [c].  Logging is left out, and
    [c.JSON] is taken to deliver the response it is given. *)
Definition openAIEndpoint (chat debug : bool) (threads ctx : Z)
    (f16 : bool) (c : Ctx) (w : World RE St)
    : outcome OpenAIResponse.t * World RE St :=
  match BodyParser c with
  | Failure err => (Fail err, w)
  | Success input =>
      match resolveConfig threads ctx f16 input (Get c "authorization") w
      with
      | (Fail err, w1) => (Fail err, w1)
      | (Panic, w1) => (Panic, w1)
      | (Ok config, w1) =>
          let predInput :=
            applyTemplate chat config (buildInput chat config input) in
          predict chat config predInput input w1
      end
  end.

End OpenAIEndpoint.

(** ** "Non-zero wins" *)

(** The value a field ends with when the override counts as present
    ([given]) and when it does not. *)
Definition wins {A : Type} (given : bool) (override start resolved : A)
    : Prop :=
  resolved = if given then override else start.

(** The ten overridable fields that live in the embedded request. *)
Definition non_zero_wins_request (start : Config.t) (input : OpenAIRequest.t)
    (config : Config.t) : Prop :=
  wins (OpenAIRequest.Echo input) (OpenAIRequest.Echo input)
    (Config.Echo start) (Config.Echo config)
  /\ wins (nonzero (OpenAIRequest.TopK input)) (OpenAIRequest.TopK input)
       (Config.TopK start) (Config.TopK config)
  /\ wins (f64_nonzero (OpenAIRequest.TopP input)) (OpenAIRequest.TopP input)
       (Config.TopP start) (Config.TopP config)
  /\ wins (f64_nonzero (OpenAIRequest.Temperature input))
       (OpenAIRequest.Temperature input)
       (Config.Temperature start) (Config.Temperature config)
  /\ wins (nonzero (OpenAIRequest.Maxtokens input))
       (OpenAIRequest.Maxtokens input)
       (Config.Maxtokens start) (Config.Maxtokens config)
  /\ wins (f64_nonzero (OpenAIRequest.RepeatPenalty input))
       (OpenAIRequest.RepeatPenalty input)
       (Config.RepeatPenalty start) (Config.RepeatPenalty config)
  /\ wins (nonzero (OpenAIRequest.Keep input)) (OpenAIRequest.Keep input)
       (Config.Keep start) (Config.Keep config)
  /\ wins (nonzero (OpenAIRequest.Batch input)) (OpenAIRequest.Batch input)
       (Config.Batch start) (Config.Batch config)
  /\ wins (OpenAIRequest.IgnoreEOS input) (OpenAIRequest.IgnoreEOS input)
       (Config.IgnoreEOS start) (Config.IgnoreEOS config)
  /\ wins (nonzero (OpenAIRequest.Seed input)) (OpenAIRequest.Seed input)
       (Config.Seed start) (Config.Seed config).

(** The same for f16, which [config.F16] finds in [Config] itself. *)
Definition non_zero_wins_f16 (start : Config.t) (input : OpenAIRequest.t)
    (config : Config.t) : Prop :=
  wins (OpenAIRequest.F16 input) (OpenAIRequest.F16 input)
    (Config.F16 start) (Config.F16 config).

(** All eleven fields. *)
Definition non_zero_wins (start : Config.t) (input : OpenAIRequest.t)
    (config : Config.t) : Prop :=
  non_zero_wins_request start input config
  /\ non_zero_wins_f16 start input config.

(** ** Model selection as the specification words it *)

(** The value the code derives from the header, openai.go line 160. *)
Definition bearerOf (authorization : string) : string :=
  GoStrings.TrimLeft authorization "Bearer ".

(** The bearer value of the specification: the token of the header, which
    is what follows the scheme word "Bearer " (the header itself when it
    does not begin with the scheme word). *)
Definition bearer_token (authorization : string) : string :=
  GoStrings.TrimPrefix authorization "Bearer ".

(** §4.2 step 1: the bearer value when it names a model in the model path,
    else the model of the request, else the first listed model, else
    NoModelError. *)
Definition model_precedence (loader : ModelLoader) (input : OpenAIRequest.t)
    (authorization : string) : result string :=
  let bearer := bearer_token authorization in
  if nonempty bearer && ExistsInModelPath loader bearer then Success bearer
  else if nonempty (OpenAIRequest.Model input)
       then Success (OpenAIRequest.Model input)
       else match fst (ListModels loader) with
            | m :: _ => Success m
            | [] => Failure NoModelError
            end.

(** ** Counting the calls of the inference callable *)



(** ** Post-processing without the pattern cache *)

Section PostText.

Context {RE : Type}.
Variable regexp : Regexp RE.

(** Every cached matcher is the one its pattern compiles to. *)
Definition coherent (cache : gmap string RE) : Prop :=
  forall c reg, cache !! c = Some reg -> Compile regexp c = Some reg.




End PostText.

(** ** The choices of a response *)



(** ** The keys of the Profile Store *)


(** The records of a multi-profile list that the loop of [LoadConfig]
    gets to: those before the first nil entry. *)
Fixpoint loaded (configs : list (option Config.t)) : list Config.t :=
  match configs with
  | Some cc :: configs' => cc :: loaded configs'
  | _ => []
  end.

(** ** A small installation to run the embedding on *)

Module Demo.

Definition spare (c : nat) : nat := c.

(** The files on disk, by path. *)
Definition files : list (string * string) :=
  [ ("profiles/bad.yaml", "name: [");
    ("profiles/good.yaml", "{name: good, stopwords: ['###']}");
    ("models/anon.yaml", "{openairequest: {top_k: 40}}");
    ("models/ggml.bin", "GGML");
    ("models/ggml.bin.yaml", "configs: [");
    ("models/gpt4all", "GGML");
    ("models/gpt4all.yaml",
     "configs: [{name: gpt4all, stopwords: ['###']}]");
    ("shared/defaults.yaml", "configs: [{openairequest: {top_k: 5}}]") ].

Fixpoint lookup_file (fs : list (string * string)) (p : string)
    : option string :=
  match fs with
  | [] => None
  | (q, content) :: fs' =>
      if String.eqb p q then Some content else lookup_file fs' p
  end.

Definition read_file (p : string) : result string :=
  match lookup_file files p with
  | Some content => Success content
  | None => Failure (Foreign "no such file or directory")
  end.

Definition read_dir (p : string) : result (list string) :=
  if String.eqb p "profiles" then Success ["bad.yaml"; "good.yaml"]
  else if String.eqb p "models" then
    Success ["anon.yaml"; "ggml.bin"; "ggml.bin.yaml"; "gpt4all";
             "gpt4all.yaml"]
  else if String.eqb p "shared" then Success ["defaults.yaml"]
  else Failure (Foreign "no such file or directory").

(** A profile with a name, a top-k and stop words, as the decoder makes
    it: the generation parameters sit in the embedded request (key
    [openairequest] of the file), and the slice of the stop words is
    freshly made with no room to spare, or nil when the file has none. *)
Definition named (name : string) (top_k : Z) (stop : list string)
    (h : gmap nat (list string)) : Config.t * gmap nat (list string) :=
  let c :=
    {| Config.OpenAIRequest :=
         OpenAIRequest.set_TopK top_k OpenAIRequest.zero;
       Config.Name := name; Config.Path := "";
       Config.StopWords := Slice.null; Config.Cutstrings := [];
       Config.TrimSpace := []; Config.ContextSize := 0;
       Config.F16 := false; Config.Threads := 0; Config.Debug := false;
       Config.Roles := ∅;
       Config.TemplateConfig := {| Completion := ""; Chat := "" |} |} in
  match stop with
  | [] => (c, h)
  | _ :: _ =>
      let a := fresh (dom h) in
      (Config.set_StopWords
         {| Slice.arr := a; Slice.len := length stop;
            Slice.cap := length stop |} c,
       <[a := stop]> h)
  end.

(** The decoder on the contents of the disk.  A key of the document that
    the target struct has no field for is passed over, so a multi-profile
    document read as one profile gives the empty profile, and a profile
    document read as a list gives the empty list. *)
Definition unmarshal_Config (f : string) (h : gmap nat (list string))
    : result (Config.t * gmap nat (list string)) :=
  if String.eqb f "{name: good, stopwords: ['###']}" then
    Success (named "good" 0 ["###"] h)
  else if String.eqb f "{openairequest: {top_k: 40}}" then
    Success (named "" 40 [] h)
  else if String.eqb f "configs: [{name: gpt4all, stopwords: ['###']}]" then
    Success (named "" 0 [] h)
  else if String.eqb f "configs: [{openairequest: {top_k: 5}}]" then
    Success (named "" 0 [] h)
  else Failure (Foreign "yaml: line 1: did not find expected node content").

Definition unmarshal_ConfigFile (f : string) (h : gmap nat (list string))
    : result (list (option Config.t) * gmap nat (list string)) :=
  if String.eqb f "configs: [{name: gpt4all, stopwords: ['###']}]" then
    let '(c, h') := named "gpt4all" 0 ["###"] h in Success ([Some c], h')
  else if String.eqb f "configs: [{openairequest: {top_k: 5}}]" then
    let '(c, h') := named "" 5 [] h in Success ([Some c], h')
  else if String.eqb f "{name: good, stopwords: ['###']}" then
    Success ([], h)
  else if String.eqb f "{openairequest: {top_k: 40}}" then
    Success ([], h)
  else Failure (Foreign "yaml: line 1: did not find expected node content").

Definition sys : System :=
  {| os_ReadFile := read_file;
     os_Stat := fun p =>
       match lookup_file files p with Some _ => true | None => false end;
     ioutil_ReadDir := read_dir;
     filepath_Join := fun dir name => dir +:+ "/" +:+ name;
     yaml_Unmarshal_Config := unmarshal_Config;
     yaml_Unmarshal_ConfigFile := unmarshal_ConfigFile |}.

Definition loader : ModelLoader :=
  {| ModelPath := "models";
     ExistsInModelPath := fun m =>
       String.eqb m "ggml.bin" || String.eqb m "gpt4all";
     ListModels := (["ggml.bin"; "gpt4all"], None);
     TemplatePrefix := fun t i =>
       if String.eqb t "alpaca" then Success ("### " +:+ i)
       else Failure (Foreign "template not found") |}.

(** A loader whose model path holds "alpaca" and "ggml.bin". *)
Definition alpaca_loader : ModelLoader :=
  {| ModelPath := "models";
     ExistsInModelPath := fun m =>
       String.eqb m "alpaca" || String.eqb m "ggml.bin";
     ListModels := (["alpaca"; "ggml.bin"], None);
     TemplatePrefix := fun _ _ => Failure (Foreign "template not found") |}.

(** The same loader over an empty model path. *)
Definition empty_loader : ModelLoader :=
  {| ModelPath := "models";
     ExistsInModelPath := fun _ => false;
     ListModels := ([], None);
     TemplatePrefix := fun _ _ => Failure (Foreign "template not found") |}.

(** Regular expressions cut down to literal patterns: letters, digits
    and spaces only, which [regexp] reads as themselves. *)
Definition literal_byte (a : ascii) : bool :=
  let n := nat_of_ascii a in
  (n =? 32) || ((48 <=? n) && (n <=? 57)) || ((65 <=? n) && (n <=? 90))
  || ((97 <=? n) && (n <=? 122)).

Fixpoint all_literal (s : string) : bool :=
  match s with
  | EmptyString => true
  | String a s' => literal_byte a && all_literal s'
  end.

Fixpoint replace_literal (fuel : nat) (re src repl : string) : string :=
  match fuel with
  | O => src
  | S k =>
      match src with
      | EmptyString => EmptyString
      | String a src' =>
          match GoStrings.strip_prefix re src with
          | Some rest => repl +:+ replace_literal k re rest repl
          | None => String a (replace_literal k re src' repl)
          end
      end
  end.

Definition literal_regexp : Regexp string :=
  {| Compile := fun c =>
       if nonempty c && all_literal c then Some c else None;
     ReplaceAllString := fun re src repl =>
       replace_literal (String.length src) re src repl |}.

(** An engine that counts its calls in its state and answers
    "Hello world" each time, except that call number [bad] (from 0)
    fails. *)
Definition predFunc (bad : nat) : PredFunc nat :=
  fun s =>
    if s =? bad then (Failure (Foreign "inference failed"), S s)
    else (Success "Hello world", S s).



Definition ModelInference (bad : nat) (predInput : string)
    (config : Config.t) (h : gmap nat (list string)) (s : nat)
    : result (PredFunc nat) * nat :=
  (Success (predFunc bad), s).

Definition request (model stop : string) (n : Z) : OpenAIRequest.t :=
  {| OpenAIRequest.Model := model; OpenAIRequest.Prompt := "Hello";
     OpenAIRequest.Stop := stop; OpenAIRequest.Messages := [];
     OpenAIRequest.Echo := false; OpenAIRequest.TopP := f64_zero;
     OpenAIRequest.TopK := 0; OpenAIRequest.Temperature := f64_zero;
     OpenAIRequest.Maxtokens := 0; OpenAIRequest.N := n;
     OpenAIRequest.Batch := 0; OpenAIRequest.F16 := false;
     OpenAIRequest.IgnoreEOS := false;
     OpenAIRequest.RepeatPenalty := f64_zero; OpenAIRequest.Keep := 0;
     OpenAIRequest.Seed := 0 |}.

Definition ctx (input : OpenAIRequest.t) (authorization : string) : Ctx :=
  {| BodyParser := Success input;
     Get := fun key =>
       if String.eqb key "authorization" then authorization else "" |}.

(** The default profile for "ggml.bin" with echo on, the cut string
    "Hello" and one trim rule with an empty prefix. *)
Definition echo_config : Config.t :=
  {| Config.OpenAIRequest :=
       OpenAIRequest.set_Echo true (defaultRequest "ggml.bin");
     Config.Name := ""; Config.Path := "";
     Config.StopWords := Slice.null; Config.Cutstrings := ["Hello"];
     Config.TrimSpace := [""]; Config.ContextSize := 0;
     Config.F16 := false; Config.Threads := 0; Config.Debug := false;
     Config.Roles := ∅;
     Config.TemplateConfig := {| Completion := ""; Chat := "" |} |}.

(** A store with the profile "vicuna" (no companion file on disk) whose
    stop list has one element and room for a second one. *)
Definition roomy_heap : gmap nat (list string) := {[ 1 := ["###"; ""] ]}.

Definition roomy_config : Config.t :=
  Config.set_StopWords {| Slice.arr := 1; Slice.len := 1; Slice.cap := 2 |}
    (fst (named "vicuna" 40 [] ∅)).

Definition roomy_store : gmap string Config.t :=
  {[ "vicuna" := roomy_config ]}.

Definition roomy_world : World string nat :=
  {| cm := roomy_store; heap := roomy_heap; cutstrings := ∅; engine := 0 |}.


Definition world0 : World string nat :=
  {| cm := ∅; heap := ∅; cutstrings := ∅; engine := 0 |}.

End Demo.

(** ** openai.go: [listModels] (304-332) *)

Module OpenAIModel.
Record t : Type := { ID : string; Object : string }.
End OpenAIModel.

(** The anonymous struct [listModels] answers with. *)
Module ModelList.
Record t : Type := { Object : string; Data : list OpenAIModel.t }.
End ModelList.

Definition modelEntry (m : string) : OpenAIModel.t :=
  {| OpenAIModel.ID := m; OpenAIModel.Object := "model" |}.

(** Lines 313-316: the listed models, noted in [mm] and put into
    [dataModels]. *)
Definition listModels_listed (models : list string)
    : gmap string unit * list OpenAIModel.t :=
  foldl (fun st m => (<[m := tt]> (fst st), snd st ++ [modelEntry m]))
    (∅, []) models.

(** Lines 318-322: the names of the Profile Store that [mm] does not have.
    Go leaves open in which order [range cm] visits the keys; [order] is
    the order of one run. *)
Definition listModels_stored (mm : gmap string unit)
    (dataModels : list OpenAIModel.t) (order : list string)
    : list OpenAIModel.t :=
  foldl (fun d k =>
           match mm !! k with
           | Some _ => d
           | None => d ++ [modelEntry k]
           end)
    dataModels order.

(** The handler that [listModels(loader, cm)] returns. *)
Definition listModels (loader : ModelLoader) (order : list string)
    : result ModelList.t :=
  match ListModels loader with
  | (_, Some err) => Failure err
  | (models, None) =>
      let st := listModels_listed models in
      Success {| ModelList.Object := "list";
                 ModelList.Data :=
                   listModels_stored (fst st) (snd st) order |}
  end.

(** [order] is a way [range cm] can go: every key of [cm], each once. *)
Definition range_of (cm : gmap string Config.t) (order : list string) : Prop :=
  NoDup order /\ forall k, k ∈ order <-> is_Some (cm !! k).

Definition ids (data : list OpenAIModel.t) : list string :=
  map OpenAIModel.ID data.

(** ** A second store for the demo installation *)

Module Site.

(** The profiles "vicuna" and "gpt4all"; "gpt4all" is also a model file of
    the demo loader. *)
Definition store : gmap string Config.t :=
  <["gpt4all" := fst (Demo.named "gpt4all" 0 [] ∅)]> Demo.roomy_store.

Definition order : list string := ["vicuna"; "gpt4all"].

Definition world : World string nat :=
  {| cm := store; heap := Demo.roomy_heap; cutstrings := ∅; engine := 0 |}.

(** A chat request with the given messages, and a role table for it. *)
Definition chat_of (messages : list Message) : OpenAIRequest.t :=
  {| OpenAIRequest.Model := "vicuna"; OpenAIRequest.Prompt := "unused";
     OpenAIRequest.Stop := ""; OpenAIRequest.Messages := messages;
     OpenAIRequest.Echo := false; OpenAIRequest.TopP := f64_zero;
     OpenAIRequest.TopK := 0; OpenAIRequest.Temperature := f64_zero;
     OpenAIRequest.Maxtokens := 0; OpenAIRequest.N := 1;
     OpenAIRequest.Batch := 0; OpenAIRequest.F16 := false;
     OpenAIRequest.IgnoreEOS := false;
     OpenAIRequest.RepeatPenalty := f64_zero; OpenAIRequest.Keep := 0;
     OpenAIRequest.Seed := 0 |}.

Definition system_message : Message :=
  {| Role := "system"; Content := "Be brief." |}.
Definition user_message : Message := {| Role := "user"; Content := "Hi" |}.

Definition chat_config : Config.t :=
  {| Config.OpenAIRequest := defaultRequest "vicuna";
     Config.Name := "vicuna"; Config.Path := "";
     Config.StopWords := Slice.null; Config.Cutstrings := [];
     Config.TrimSpace := []; Config.ContextSize := 0;
     Config.F16 := false; Config.Threads := 0; Config.Debug := false;
     Config.Roles := {[ "user" := "### Human:"; "system" := "" ]};
     Config.TemplateConfig := {| Completion := ""; Chat := "" |} |}.

(** A profile whose one cut string is not a regular expression. *)
Definition broken_config : Config.t :=
  {| Config.OpenAIRequest := defaultRequest "ggml.bin";
     Config.Name := "broken"; Config.Path := "";
     Config.StopWords := Slice.null; Config.Cutstrings := ["("];
     Config.TrimSpace := []; Config.ContextSize := 0;
     Config.F16 := false; Config.Threads := 0; Config.Debug := false;
     Config.Roles := ∅;
     Config.TemplateConfig := {| Completion := ""; Chat := "" |} |}.

(** The demo disk with two more files.  "models/multi.yaml" holds three
    profiles: "alpaca" with top-k 1, "koala" with top-k 2, and "alpaca"
    again with top-k 3.  "models/vicuna.yaml" holds the profile "vicuna"
    with top-k 7 and then a [null] entry. *)
Definition multi_yaml : string :=
  "configs: [{name: alpaca, openairequest: {top_k: 1}}, {name: koala, openairequest: {top_k: 2}}, {name: alpaca, openairequest: {top_k: 3}}]".

Definition vicuna_yaml : string :=
  "configs: [{name: vicuna, openairequest: {top_k: 7}}, null]".

Definition multi_sys : System :=
  {| os_ReadFile := fun p =>
       if String.eqb p "models/multi.yaml" then Success multi_yaml
       else if String.eqb p "models/vicuna.yaml" then Success vicuna_yaml
       else Demo.read_file p;
     os_Stat := fun p =>
       String.eqb p "models/multi.yaml" || String.eqb p "models/vicuna.yaml"
       || os_Stat Demo.sys p;
     ioutil_ReadDir := Demo.read_dir;
     filepath_Join := filepath_Join Demo.sys;
     yaml_Unmarshal_Config := Demo.unmarshal_Config;
     yaml_Unmarshal_ConfigFile := fun f h =>
       if String.eqb f multi_yaml then
         Success ([Some (fst (Demo.named "alpaca" 1 [] h));
                   Some (fst (Demo.named "koala" 2 [] h));
                   Some (fst (Demo.named "alpaca" 3 [] h))], h)
       else if String.eqb f vicuna_yaml then
         Success ([Some (fst (Demo.named "vicuna" 7 [] h)); None], h)
       else Demo.unmarshal_ConfigFile f h |}.

(** A store with the echoing profile of the demo under the name "echo". *)
Definition echo_world : World string nat :=
  {| cm := {[ "echo" := Demo.echo_config ]}; heap := ∅; cutstrings := ∅;
     engine := 0 |}.

Definition broken_world : World string nat :=
  {| cm := {[ "broken" := broken_config ]}; heap := ∅; cutstrings := ∅;
     engine := 0 |}.

End Site.

(** ** Requests that override nothing *)

(** Every field that [updateConfig] looks at is at its zero value. *)
Definition overrides_nothing (input : OpenAIRequest.t) : bool :=
  negb (OpenAIRequest.Echo input)
  && negb (nonzero (OpenAIRequest.TopK input))
  && negb (f64_nonzero (OpenAIRequest.TopP input))
  && negb (f64_nonzero (OpenAIRequest.Temperature input))
  && negb (nonzero (OpenAIRequest.Maxtokens input))
  && negb (nonempty (OpenAIRequest.Stop input))
  && negb (f64_nonzero (OpenAIRequest.RepeatPenalty input))
  && negb (nonzero (OpenAIRequest.Keep input))
  && negb (nonzero (OpenAIRequest.Batch input))
  && negb (OpenAIRequest.F16 input)
  && negb (OpenAIRequest.IgnoreEOS input)
  && negb (nonzero (OpenAIRequest.Seed input)).

(** ** The pattern cache over a request *)

(** [cache'] has every matcher of [cache], and whatever else it has was
    compiled from its pattern. *)
Definition cache_extends {RE : Type} (regexp : Regexp RE)
    (cache cache' : gmap string RE) : Prop :=
  (forall c reg, cache !! c = Some reg -> cache' !! c = Some reg)
  /\ (forall c reg,
        cache' !! c = Some reg ->
        cache !! c = Some reg \/ Compile regexp c = Some reg).

(** The shape of a choice in the two modes. *)
Definition choice_shape (chat : bool) (ch : Choice.t) : Prop :=
  Choice.Index ch = 0%Z
  /\ Choice.FinishReason ch = ""
  /\ if chat then
       Choice.Text ch = ""
       /\ exists content,
            Choice.Message ch
            = Some {| Role := "assistant"; Content := content |}
     else Choice.Message ch = None.

(** ** White space at the ends of a text *)

(** The text begins, or ends, with the encoding of a white-space code
    point. *)
Definition leading_space (s : string) : bool :=
  match GoStrings.strip_any GoStrings.space_encodings s with
  | Some _ => true
  | None => false
  end.

Definition trailing_space (s : string) : bool :=
  match GoStrings.strip_any
          (map GoStrings.rev_string GoStrings.space_encodings)
          (GoStrings.rev_string s) with
  | Some _ => true
  | None => false
  end.

(** * Properties *)

(** ** The string functions on a few inputs *)

(** [strings.TrimLeft] takes its second argument as a set of bytes: after
    "Bearer " it goes on through the "ear" of "ear.bin". *)
Example TrimLeft_cutset :
  bearerOf "Bearer ggml.bin" = "ggml.bin" /\ bearerOf "Bearer ear.bin" = ".bin".
Proof. split; reflexivity. Qed.

Example Contains_yaml :
  GoStrings.Contains "gpt4all.yaml" ".yaml" = true
  /\ GoStrings.Contains "gpt4all.yaml.bak" ".yaml" = true
  /\ GoStrings.Contains "gpt4all.yml" ".yaml" = false.
Proof. repeat split; reflexivity. Qed.

(** White space goes at both ends, the no-break space U+00A0 and the em
    space U+2003 included; inside the text it stays. *)
Example TrimSpace_unicode :
  GoStrings.TrimSpace
    (GoStrings.bytes [32; 226; 128; 131; 72; 105; 32; 33; 194; 160; 10])
  = "Hi !".
Proof. reflexivity. Qed.

Example TrimPrefix_once :
  GoStrings.TrimPrefix "User: User: hi" "User: " = "User: hi"
  /\ GoStrings.TrimPrefix "hi" "User: " = "hi".
Proof. split; reflexivity. Qed.

(** ** [updateConfig] and the forced values, field by field *)

Lemma when_eq {A B : Type} (p : A -> B) (b : bool) (f : A -> A) (a : A) :
  p (when b f a) = if b then p (f a) else p a.
Proof. by destruct b. Qed.

(** A guarded assignment to another field does not show through [p]. *)
Lemma when_other {A B : Type} (p : A -> B) (b : bool) (f : A -> A) (a : A) :
  (forall x, p (f x) = p x) -> p (when b f a) = p a.
Proof. intros Hp. destruct b; [apply Hp | done]. Qed.

(** Case analysis on every guard in the goal. *)
Ltac case_when :=
  repeat match goal with
         | |- context [when ?b _ _] => destruct b eqn:?; cbn [when]
         end.

(** Read the field [p] off a chain of guarded assignments: the
    assignments to other fields fall away, the one to [p] stays as a
    conditional. *)
Ltac skip_others p :=
  repeat (rewrite (when_other p) by (intros; reflexivity)).
Ltac read_field :=
  match goal with
  | |- ?p (when _ _ _) = _ =>
      skip_others p; try (rewrite (when_eq p); cbn; skip_others p)
  end.

(** A guarded assignment through a promoted selector, seen from the
    embedded request. *)
Lemma upd_request (b : bool) (f : OpenAIRequest.t -> OpenAIRequest.t)
    (c : Config.t) :
  Config.OpenAIRequest (when b (Config.upd f) c)
  = when b f (Config.OpenAIRequest c).
Proof. by destruct b. Qed.

Section MergeFacts.

Variable spare : nat -> nat.

(** The embedded request after [updateConfig]. *)
Lemma updateConfig_request config h input :
  Config.OpenAIRequest (fst (updateConfig spare config h input)) =
  let r := Config.OpenAIRequest config in
  let r := when (OpenAIRequest.Echo input)
             (OpenAIRequest.set_Echo (OpenAIRequest.Echo input)) r in
  let r := when (nonzero (OpenAIRequest.TopK input))
             (OpenAIRequest.set_TopK (OpenAIRequest.TopK input)) r in
  let r := when (f64_nonzero (OpenAIRequest.TopP input))
             (OpenAIRequest.set_TopP (OpenAIRequest.TopP input)) r in
  let r := when (f64_nonzero (OpenAIRequest.Temperature input))
             (OpenAIRequest.set_Temperature
                (OpenAIRequest.Temperature input)) r in
  let r := when (nonzero (OpenAIRequest.Maxtokens input))
             (OpenAIRequest.set_Maxtokens (OpenAIRequest.Maxtokens input))
             r in
  let r := when (f64_nonzero (OpenAIRequest.RepeatPenalty input))
             (OpenAIRequest.set_RepeatPenalty
                (OpenAIRequest.RepeatPenalty input)) r in
  let r := when (nonzero (OpenAIRequest.Keep input))
             (OpenAIRequest.set_Keep (OpenAIRequest.Keep input)) r in
  let r := when (nonzero (OpenAIRequest.Batch input))
             (OpenAIRequest.set_Batch (OpenAIRequest.Batch input)) r in
  let r := when (OpenAIRequest.IgnoreEOS input)
             (OpenAIRequest.set_IgnoreEOS (OpenAIRequest.IgnoreEOS input))
             r in
  when (nonzero (OpenAIRequest.Seed input))
    (OpenAIRequest.set_Seed (OpenAIRequest.Seed input)) r.
Proof.
  unfold updateConfig.
  destruct (nonempty (OpenAIRequest.Stop input));
    [destruct (Slice.append _ _ _ _) as [s h']|]; cbn [fst];
    repeat first
      [ rewrite upd_request
      | rewrite (when_other Config.OpenAIRequest) by (intros; reflexivity)
      | progress (unfold Config.set_StopWords; cbn [Config.OpenAIRequest]) ];
    reflexivity.
Qed.

(** [config.F16] after [updateConfig]. *)
Lemma updateConfig_F16 config h input :
  Config.F16 (fst (updateConfig spare config h input)) =
  if OpenAIRequest.F16 input then OpenAIRequest.F16 input
  else Config.F16 config.
Proof.
  unfold updateConfig.
  destruct (nonempty (OpenAIRequest.Stop input));
    [destruct (Slice.append _ _ _ _) as [s h']|]; cbn [fst];
    read_field; unfold Config.set_StopWords; cbn [Config.F16];
    skip_others Config.F16; reflexivity.
Qed.

(** The stop list and the heap after [updateConfig]. *)
Lemma updateConfig_StopWords config h input :
  let r := updateConfig spare config h input in
  (Config.StopWords (fst r), snd r) =
  if nonempty (OpenAIRequest.Stop input)
  then Slice.append spare h (Config.StopWords config)
         (OpenAIRequest.Stop input)
  else (Config.StopWords config, h).
Proof.
  unfold updateConfig.
  destruct (nonempty (OpenAIRequest.Stop input)).
  - assert (Hsw : forall b f c,
               Config.StopWords (when b (Config.upd f) c) =
               Config.StopWords c) by (by intros [] ? ?).
    rewrite !Hsw.
    destruct (Slice.append _ _ _ _) as [s h']; cbn [fst snd].
    case_when; reflexivity.
  - cbn [fst snd].
    case_when; reflexivity.
Qed.

(** The forced values leave the embedded request and the stop list
    alone. *)
Lemma forceServerValues_request threads ctx f16 config :
  Config.OpenAIRequest (forceServerValues threads ctx f16 config) =
  Config.OpenAIRequest config.
Proof.
  unfold forceServerValues.
  by destruct (nonzero threads), (nonzero ctx), f16.
Qed.

Lemma forceServerValues_StopWords threads ctx f16 config :
  Config.StopWords (forceServerValues threads ctx f16 config) =
  Config.StopWords config.
Proof.
  unfold forceServerValues.
  by destruct (nonzero threads), (nonzero ctx), f16.
Qed.

Lemma forceServerValues_F16 threads ctx f16 config :
  Config.F16 (forceServerValues threads ctx f16 config) =
  if f16 then true else Config.F16 config.
Proof.
  unfold forceServerValues.
  by destruct (nonzero threads), (nonzero ctx), f16.
Qed.

(** The ten request fields obey "non-zero wins" once the embedded
    request is the one [updateConfig] leaves. *)
Lemma non_zero_wins_request_intro start h input config :
  Config.OpenAIRequest config =
  Config.OpenAIRequest (fst (updateConfig spare start h input)) ->
  non_zero_wins_request start input config.
Proof.
  intros Hreq.
  unfold non_zero_wins_request, wins, Config.Echo, Config.TopK, Config.TopP,
    Config.Temperature, Config.Maxtokens, Config.RepeatPenalty, Config.Keep,
    Config.Batch, Config.IgnoreEOS, Config.Seed.
  rewrite Hreq, updateConfig_request. cbv zeta.
  repeat split; read_field; reflexivity.
Qed.

End MergeFacts.

(** ** C1: "non-zero wins" on the Resolved Configuration *)

(** C1, as the specification words it, fails for f16: a server started
    with the forced half-precision flag resolves f16 to [true] although
    the request leaves f16 unset and the starting profile (here the
    default one for "ggml.bin") has it [false]. *)
Lemma non_zero_wins_f16_forced_counterexample :
  let start := startConfig ∅ "ggml.bin" in
  let config :=
    fst (mergeConfig (fun _ => 0) 0 0 true ∅ ∅ "ggml.bin" OpenAIRequest.zero)
  in
  OpenAIRequest.F16 OpenAIRequest.zero = false
  /\ Config.F16 start = false
  /\ Config.F16 config = true
  /\ ~ non_zero_wins start OpenAIRequest.zero config.
Proof.
  cbv zeta. repeat split.
  intros [_ Hf16]. vm_compute in Hf16. discriminate Hf16.
Qed.

(** C1 (amended): for every starting profile (the stored one or the
    default one) and every request, each of echo, top-k, top-p,
    temperature, max-tokens, repeat-penalty, keep, batch, ignore-eos and
    seed is, in the Resolved Configuration, the override when that is
    non-zero and the starting profile's value otherwise.  For f16 this
    holds of the configuration [updateConfig] leaves; in the Resolved
    Configuration it holds when the server does not force half precision,
    and f16 is [true] when it does. *)
Theorem non_zero_wins_resolved (spare : nat -> nat) (threads ctx : Z)
    (f16 : bool) (store : gmap string Config.t) (h : gmap nat (list string))
    (modelFile : string) (input : OpenAIRequest.t) :
  let start := startConfig store modelFile in
  let merged := fst (updateConfig spare start h input) in
  let config :=
    fst (mergeConfig spare threads ctx f16 store h modelFile input) in
  non_zero_wins_request start input config
  /\ non_zero_wins start input merged
  /\ if f16 then Config.F16 config = true
     else non_zero_wins start input config.
Proof.
  cbv zeta. unfold mergeConfig.
  destruct (updateConfig spare (startConfig store modelFile) h input)
    as [merged h'] eqn:Hupd.
  cbn [fst].
  assert (Hm : merged = fst (updateConfig spare (startConfig store modelFile)
                               h input)) by (by rewrite Hupd).
  assert (Hreq : non_zero_wins_request (startConfig store modelFile) input
                   (forceServerValues threads ctx f16 merged)).
  { apply (non_zero_wins_request_intro spare _ h).
    by rewrite forceServerValues_request, Hm. }
  assert (Hf : non_zero_wins_f16 (startConfig store modelFile) input merged).
  { unfold non_zero_wins_f16, wins. rewrite Hm. apply updateConfig_F16. }
  split; [exact Hreq|]. split.
  - split; [|exact Hf].
    apply (non_zero_wins_request_intro spare _ h). by rewrite Hm.
  - destruct f16.
    + by rewrite forceServerValues_F16.
    + split; [exact Hreq|].
      unfold non_zero_wins_f16, wins in *.
      by rewrite forceServerValues_F16.
Qed.

(** ** C2: which model a request runs on *)

(** The only error of [selectModel] is [NoModelError]. *)
Lemma selectModel_error (loader : ModelLoader) (input : OpenAIRequest.t)
    (authorization : string) (err : error) :
  selectModel loader input authorization = Failure err -> err = NoModelError.
Proof.
  unfold selectModel.
  destruct (String.eqb _ "" && negb _); [|discriminate].
  destruct (fst (ListModels loader)); [|discriminate].
  by intros [= <-].
Qed.

(** On the value it derives from the header, the code follows the
    precedence: that value, when it names a model in the model path, goes
    before the model of the request; that goes before the first model of
    the listing; with none of the three the request fails with
    NoModelError. *)
Lemma selectModel_cases (loader : ModelLoader)
    (input : OpenAIRequest.t) (authorization : string) :
  let bearer := bearerOf authorization in
  let bearerExists := nonempty bearer && ExistsInModelPath loader bearer in
  (bearerExists = true ->
   selectModel loader input authorization = Success bearer)
  /\ (bearerExists = false -> OpenAIRequest.Model input <> "" ->
      selectModel loader input authorization =
        Success (OpenAIRequest.Model input))
  /\ (bearerExists = false -> OpenAIRequest.Model input = "" ->
      forall m rest, fst (ListModels loader) = m :: rest ->
      selectModel loader input authorization = Success m)
  /\ (bearerExists = false -> OpenAIRequest.Model input = "" ->
      fst (ListModels loader) = [] ->
      selectModel loader input authorization = Failure NoModelError).
Proof.
  cbv zeta. unfold selectModel, bearerOf, nonempty.
  destruct (negb (String.eqb (GoStrings.TrimLeft authorization "Bearer ") "")
            && ExistsInModelPath loader _) eqn:Hb;
    destruct (String.eqb (OpenAIRequest.Model input) "") eqn:Hm;
    cbn [andb negb].
  - repeat split; try done.
  - repeat split; try done.
  - apply String.eqb_eq in Hm.
    destruct (fst (ListModels loader)) as [|m rest] eqn:Hl;
      repeat split; try done.
    intros _ _ m' rest' [= -> ->]. done.
  - apply String.eqb_neq in Hm. repeat split; try done.
Qed.

(** Whenever the value the code derives from the header is the token of
    the header, the code selects the model the specification selects. *)
Lemma selectModel_on_token (loader : ModelLoader)
    (input : OpenAIRequest.t) (authorization : string) :
  bearerOf authorization = bearer_token authorization ->
  selectModel loader input authorization
  = model_precedence loader input authorization.
Proof.
  intros Heq. unfold model_precedence. cbv zeta. rewrite <- Heq.
  unfold selectModel, bearerOf, nonempty.
  destruct (negb (String.eqb (GoStrings.TrimLeft authorization "Bearer ") "")
            && ExistsInModelPath loader _);
    destruct (String.eqb (OpenAIRequest.Model input) ""); cbn [andb negb];
    try done.
  by destruct (fst (ListModels loader)).
Qed.

(** C2: the precedence of the specification and the code part on the
    header "Bearer alpaca" over a model path that holds "alpaca": the bearer
    value is "alpaca", it names an existing model, and by the precedence it
    goes before the request's "ggml.bin"; the code strips the header with
    [strings.TrimLeft], which takes "Bearer " as a set of bytes and goes on
    through the "a" of "alpaca", looks for "lpaca" in the model path, and
    runs the request's "ggml.bin". *)
Theorem selectModel_bearer_slip :
  bearer_token "Bearer alpaca" = "alpaca"
  /\ ExistsInModelPath Demo.alpaca_loader "alpaca" = true
  /\ model_precedence Demo.alpaca_loader (Demo.request "ggml.bin" "" 1)
       "Bearer alpaca"
     = Success "alpaca"
  /\ bearerOf "Bearer alpaca" = "lpaca"
  /\ ExistsInModelPath Demo.alpaca_loader "lpaca" = false
  /\ selectModel Demo.alpaca_loader (Demo.request "ggml.bin" "" 1)
       "Bearer alpaca"
     = Success "ggml.bin".
Proof. repeat split. Qed.

(** ** The sampling loop *)

Section Sampling.

Context {RE St : Type}.
Variable regexp : Regexp RE.


Lemma coherent_empty : coherent regexp ∅.
Proof. intros c reg. by rewrite lookup_empty. Qed.



Variables (chat : bool) (config : Config.t) (predInput : string).
Variable predFunc : PredFunc St.



End Sampling.

(** ** The handler past its early returns *)

(** When the body parses, the configuration resolves and [ModelInference]
    hands out its closure, the handler answers what the sampling loop
    makes of that closure, on the input after the template. *)
Lemma openAIEndpoint_sample {RE St : Type} (sys : System)
    (loader : ModelLoader) (regexp : Regexp RE)
    (ModelInference :
       string -> Config.t -> gmap nat (list string) -> St ->
       result (PredFunc St) * St)
    (spare : nat -> nat) (chat debug : bool) (threads ctx : Z) (f16 : bool)
    (c : Ctx) (w w1 : World RE St) (input : OpenAIRequest.t)
    (config : Config.t) (predFunc : PredFunc St) (s' : St) :
  let predInput := applyTemplate loader chat config
                     (buildInput chat config input) in
  BodyParser c = Success input ->
  resolveConfig sys loader spare threads ctx f16 input
    (Get c "authorization") w = (Ok config, w1) ->
  ModelInference predInput config (heap w1) (engine w1)
    = (Success predFunc, s') ->
  fst (openAIEndpoint sys loader regexp ModelInference spare chat debug
         threads ctx f16 c w)
  = fst (fst (sample regexp chat config predInput input predFunc
                (cutstrings w1) s')).
Proof.
  intros predInput Hbody Hres Hinf.
  unfold openAIEndpoint. rewrite Hbody, Hres.
  unfold predict. fold predInput. rewrite Hinf.
  by destruct (sample _ _ _ _ _ _ _ _) as [[r cache'] s''].
Qed.

(** ** C3: how often the inference callable runs *)







(** ** The loop of [LoadConfig] *)

(** Whatever the loop ends in, the Store has the records before the first
    nil entry, put in one after the other. *)
Lemma LoadConfig_range_store (configs : list (option Config.t)) :
  forall cm : gmap string Config.t,
  snd (LoadConfig_range cm configs)
  = foldl (fun m cc => <[Config.Name cc := cc]> m) cm (loaded configs).
Proof.
  induction configs as [|[cc|] configs IH]; intros cm; cbn; [done| |done].
  apply IH.
Qed.

(** The loop does not return an error. *)
Lemma LoadConfig_range_status (configs : list (option Config.t)) :
  forall cm : gmap string Config.t,
  fst (LoadConfig_range cm configs) = Ok tt
  \/ fst (LoadConfig_range cm configs) = Panic.
Proof.
  induction configs as [|[cc|] configs IH]; intros cm; cbn [LoadConfig_range];
    [by left | apply IH | by right].
Qed.

(** Without a nil entry the loop runs through. *)
Lemma LoadConfig_range_Ok (cs : list Config.t) :
  forall cm : gmap string Config.t,
  fst (LoadConfig_range cm (map Some cs)) = Ok tt.
Proof. induction cs as [|c cs IH]; intros cm; cbn; [done|apply IH]. Qed.

(** At a nil entry it panics. *)
Lemma LoadConfig_range_Panic (cs : list Config.t)
    (rest : list (option Config.t)) :
  forall cm : gmap string Config.t,
  fst (LoadConfig_range cm (map Some cs ++ None :: rest)) = Panic.
Proof. induction cs as [|c cs IH]; intros cm; cbn; [done|apply IH]. Qed.

(** It panics exactly when the list has a nil entry. *)
Lemma LoadConfig_range_nil (configs : list (option Config.t)) :
  forall cm : gmap string Config.t,
  fst (LoadConfig_range cm configs) = Panic <-> None ∈ configs.
Proof.
  induction configs as [|[cc|] configs IH]; intros cm; cbn [LoadConfig_range].
  - cbn [fst]. split; [done|]. intros Hin. by apply elem_of_nil in Hin.
  - rewrite IH, elem_of_cons. split; [by right|]. by intros [Heq|Hin].
  - cbn [fst]. split; [|done]. intros _. apply list_elem_of_here.
Qed.

Lemma LoadConfig_range_full (configs : list (option Config.t)) :
  forall cm : gmap string Config.t,
  None ∉ configs -> fst (LoadConfig_range cm configs) = Ok tt.
Proof.
  intros cm Hfull.
  destruct (LoadConfig_range_status configs cm) as [Hok|Hpanic]; [done|].
  by apply LoadConfig_range_nil in Hpanic.
Qed.

Lemma loaded_map_Some (cs : list Config.t) : loaded (map Some cs) = cs.
Proof. induction cs as [|c cs IH]; cbn; [done|by rewrite IH]. Qed.

Lemma loaded_nil_entry (cs : list Config.t) (rest : list (option Config.t)) :
  loaded (map Some cs ++ None :: rest) = cs.
Proof. induction cs as [|c cs IH]; cbn; [done|by rewrite IH]. Qed.

(** A list of entries has no nil entry, or a first one. *)
Lemma entries_split (configs : list (option Config.t)) :
  configs = map Some (loaded configs)
  \/ exists rest, configs = map Some (loaded configs) ++ None :: rest.
Proof.
  induction configs as [|[cc|] configs IH]; cbn.
  - by left.
  - destruct IH as [IH|[rest IH]].
    + left. by rewrite <- IH.
    + right. exists rest. by rewrite <- IH.
  - right. by exists configs.
Qed.

(** ** C4: the errors of the Config Resolver *)

(** C4, as the specification words it, fails: for the model "ggml.bin" of
    the demo installation a model is determined, but its companion file
    "models/ggml.bin.yaml" does not decode, and resolution ends in an
    error that is not NoModelError.  Nor does resolution succeed for the
    model "vicuna" once its companion file "models/vicuna.yaml" is there,
    whose list has a nil entry. *)
Lemma resolveConfig_companion_counterexample :
  selectModel Demo.loader (Demo.request "ggml.bin" "" 1) ""
    = Success "ggml.bin"
  /\ fst (resolveConfig Demo.sys Demo.loader Demo.spare 0 0 false
            (Demo.request "ggml.bin" "" 1) "" Demo.world0)
     = Fail (LoadModelConfigError
               (Wrapped "cannot read config file"
                  (Wrapped "cannot unmarshal config file"
                     (Foreign "yaml: line 1: did not find expected node content"))))
  /\ is_Ok (fst (resolveConfig Demo.sys Demo.loader Demo.spare 0 0 false
                   (Demo.request "ggml.bin" "" 1) "" Demo.world0)) = false
  /\ selectModel Demo.loader (Demo.request "vicuna" "" 1) ""
     = Success "vicuna"
  /\ is_Ok (fst (resolveConfig Site.multi_sys Demo.loader Demo.spare 0 0 false
                   (Demo.request "vicuna" "" 1) "" Demo.world0)) = false.
Proof. repeat split. Qed.

(** C4 (amended): once a model is determined, resolution succeeds when
    the model has no companion file, and when the companion file decodes
    to a list of profiles without a nil entry; the result is then the
    merge of lines 188-209 over the Store as the companion load left it.
    When the companion file exists and cannot be read or decoded, the
    request fails with the "failed loading model config" error.
    NoModelError and that error are the only errors the resolver
    returns.  (A list with a nil entry is not covered here: [LoadConfig]
    dereferences the entry.) *)
Theorem resolveConfig_errors {RE St : Type} (sys : System)
    (loader : ModelLoader) (spare : nat -> nat) (threads ctx : Z)
    (f16 : bool) (input : OpenAIRequest.t) (authorization : string)
    (w : World RE St) :
  let r := resolveConfig sys loader spare threads ctx f16 input authorization w
  in
  (forall err,
     selectModel loader input authorization = Failure err ->
     err = NoModelError /\ r = (Fail NoModelError, w))
  /\ (forall modelFile,
        selectModel loader input authorization = Success modelFile ->
        let modelConfig :=
          filepath_Join sys (ModelPath loader) (modelFile +:+ ".yaml") in
        (os_Stat sys modelConfig = false ->
         fst r =
         Ok (fst (mergeConfig spare threads ctx f16 (cm w) (heap w)
                    modelFile input)))
        /\ (forall cs h',
              os_Stat sys modelConfig = true ->
              ReadConfigFile sys modelConfig (heap w)
              = Success (map Some cs, h') ->
              fst r =
              Ok (fst (mergeConfig spare threads ctx f16
                         (foldl (fun m cc => <[Config.Name cc := cc]> m)
                            (cm w) cs)
                         h' modelFile input)))
        /\ (forall err,
              os_Stat sys modelConfig = true ->
              ReadConfigFile sys modelConfig (heap w) = Failure err ->
              r = (Fail (LoadModelConfigError
                           (Wrapped "cannot read config file" err)), w)))
  /\ (forall err,
        fst r = Fail err ->
        err = NoModelError
        \/ exists cause,
             err = LoadModelConfigError
                     (Wrapped "cannot read config file" cause)).
Proof.
  cbv zeta. unfold resolveConfig, loadCompanion, LoadConfig.
  split; [|split].
  - intros err Hsel. rewrite Hsel.
    apply selectModel_error in Hsel. by subst err.
  - intros modelFile Hsel. rewrite Hsel. split; [|split].
    + intros ->. by destruct (mergeConfig _ _ _ _ _ _ _ _).
    + intros cs h' -> ->. cbn [fst snd].
      rewrite LoadConfig_range_Ok, LoadConfig_range_store, loaded_map_Some.
      cbn [cm heap]. by destruct (mergeConfig _ _ _ _ _ _ _ _).
    + intros err -> ->. by destruct w.
  - intros err.
    destruct (selectModel loader input authorization) as [modelFile|e]
      eqn:Hsel.
    + destruct (os_Stat sys _).
      * destruct (ReadConfigFile sys _ (heap w)) as [[configs h']|e].
        -- cbn [fst snd].
           destruct (LoadConfig_range_status configs (cm w)) as [-> | ->].
           ++ by destruct (mergeConfig _ _ _ _ _ _ _ _).
           ++ done.
        -- cbn [fst]. intros [= <-]. right. by exists e.
      * by destruct (mergeConfig _ _ _ _ _ _ _ _).
    + apply selectModel_error in Hsel. subst e. cbn [fst].
      intros [= <-]. by left.
Qed.

(** C4 on the demo installation: the companion file of "gpt4all" decodes
    to one profile, and the request resolves from it; "alpaca" has no
    companion file and resolves from the default profile. *)
Lemma resolveConfig_errors_witness :
  (exists config,
     fst (resolveConfig Demo.sys Demo.loader Demo.spare 0 0 false
            (Demo.request "gpt4all" "" 1) "" Demo.world0)
     = Ok config
     /\ Config.Name config = "gpt4all"
     /\ Config.TopK config = 0%Z)
  /\ (exists config,
        fst (resolveConfig Demo.sys Demo.loader Demo.spare 0 0 false
               (Demo.request "alpaca" "" 1) "" Demo.world0)
        = Ok config
        /\ Config.Name config = ""
        /\ Config.TopK config = 80%Z).
Proof.
  split.
  - eexists. split.
    + assert (Hsel : selectModel Demo.loader (Demo.request "gpt4all" "" 1) ""
                     = Success "gpt4all") by reflexivity.
      destruct (proj1 (proj2 (resolveConfig_errors Demo.sys Demo.loader
                                Demo.spare 0 0 false
                                (Demo.request "gpt4all" "" 1) ""
                                Demo.world0)) "gpt4all" Hsel)
        as (_ & Hsome & _).
      apply (Hsome [fst (Demo.named "gpt4all" 0 ["###"] ∅)]
               (snd (Demo.named "gpt4all" 0 ["###"] ∅))); reflexivity.
    + split; reflexivity.
  - eexists. split.
    + assert (Hsel : selectModel Demo.loader (Demo.request "alpaca" "" 1) ""
                     = Success "alpaca") by reflexivity.
      destruct (proj1 (proj2 (resolveConfig_errors Demo.sys Demo.loader
                                Demo.spare 0 0 false
                                (Demo.request "alpaca" "" 1) ""
                                Demo.world0)) "alpaca" Hsel)
        as (Hnone & _ & _).
      apply Hnone. reflexivity.
    + split; reflexivity.
Defined.

(** ** C5: the keys of the Profile Store *)


Section StoreKeys.

Variable sys : System.









End StoreKeys.



(** ** C6: echo comes before the cleanup *)



(** ** Appending to a slice *)

Section SliceFacts.

Variable spare : nat -> nat.

(** After [append] the slice shows the old elements and then [v]. *)
Lemma append_elems h s v :
  Slice.wf h s ->
  let r := Slice.append spare h s v in
  Slice.elems (snd r) (fst r) = Slice.elems h s ++ [v]
  /\ Slice.wf (snd r) (fst r).
Proof.
  intros [Hle Hlen]. unfold Slice.append.
  destruct (Nat.ltb_spec (Slice.len s) (Slice.cap s)) as [Hlt|Hge];
    cbn [fst snd]; unfold Slice.elems, Slice.wf, Slice.backing in *;
    cbn [Slice.arr Slice.len Slice.cap]; rewrite lookup_insert_eq;
    cbn [default from_option id].
  - split; [|split; [lia | by rewrite length_insert]].
    rewrite (take_S_r _ _ v).
    + by rewrite take_insert_ge.
    + apply list_lookup_insert_eq. lia.
  - assert (Htake : length (take (Slice.len s) (default [] (h !! Slice.arr s)))
                    = Slice.len s) by (apply length_take_le; lia).
    split; [|split; [lia|]].
    + rewrite take_app_ge by lia. rewrite Htake.
      replace (S (Slice.len s) - Slice.len s) with 1 by lia. done.
    + rewrite length_app, Htake. cbn [length]. rewrite length_replicate.
      lia.
Qed.

(** The [nil] slice is well formed on every heap and shows nothing. *)
Lemma null_wf h : Slice.wf h Slice.null /\ Slice.elems h Slice.null = [].
Proof. split; [split; cbn; lia | done]. Qed.

(** Another slice [t] keeps its elements, unless it looks into the same
    array beyond the end of [s]. *)
Lemma append_frame h s v t :
  Slice.wf h t ->
  (Slice.arr t = Slice.arr s -> Slice.len t <= Slice.len s) ->
  Slice.elems (snd (Slice.append spare h s v)) t = Slice.elems h t.
Proof.
  intros [Hle Hlen] Hshare. unfold Slice.append.
  destruct (Nat.ltb_spec (Slice.len s) (Slice.cap s)) as [Hlt|Hge];
    cbn [fst snd]; unfold Slice.elems, Slice.backing in *.
  - destruct (decide (Slice.arr t = Slice.arr s)) as [Heq|Hne].
    + rewrite Heq, lookup_insert_eq. cbn [default from_option id].
      apply take_insert_ge. by apply Hshare.
    + by rewrite lookup_insert_ne.
  - destruct (decide (Slice.arr t = fresh (dom h))) as [Heq|Hne].
    + assert (Hnone : h !! Slice.arr t = None).
      { apply not_elem_of_dom. rewrite Heq. apply is_fresh. }
      rewrite Hnone in Hlen |- *. cbn in Hlen.
      assert (Hz : Slice.len t = 0) by lia.
      by rewrite Hz.
    + by rewrite lookup_insert_ne.
Qed.

(** A slice keeps its own elements when something is appended to it. *)
Lemma append_frame_self h s v :
  Slice.wf h s ->
  Slice.elems (snd (Slice.append spare h s v)) s = Slice.elems h s.
Proof. intros Hwf. by apply append_frame. Qed.

End SliceFacts.

(** ** C7: a stop value is appended *)

(** C7: for a starting profile whose stop list shows the elements S, a
    request with a non-empty stop value v resolves to a stop list that
    shows S followed by v: one element more, the first len(S) as before,
    the last one v.  An empty stop value leaves the list, its header and
    the heap as they are. *)
Theorem stop_appended (spare : nat -> nat) (threads ctx : Z) (f16 : bool)
    (store : gmap string Config.t) (h : gmap nat (list string))
    (modelFile : string) (input : OpenAIRequest.t) :
  let start := startConfig store modelFile in
  let r := mergeConfig spare threads ctx f16 store h modelFile input in
  let S0 := Slice.elems h (Config.StopWords start) in
  let S1 := Slice.elems (snd r) (Config.StopWords (fst r)) in
  Slice.wf h (Config.StopWords start) ->
  if nonempty (OpenAIRequest.Stop input) then
    S1 = S0 ++ [OpenAIRequest.Stop input]
    /\ length S1 = length S0 + 1
    /\ take (length S0) S1 = S0
    /\ last S1 = Some (OpenAIRequest.Stop input)
    /\ Slice.wf (snd r) (Config.StopWords (fst r))
  else
    S1 = S0 /\ Config.StopWords (fst r) = Config.StopWords start /\ snd r = h.
Proof.
  cbv zeta. intros Hwf. unfold mergeConfig.
  pose proof (updateConfig_StopWords spare (startConfig store modelFile) h
                input) as Hsw.
  cbv zeta in Hsw.
  destruct (updateConfig spare (startConfig store modelFile) h input)
    as [merged h'].
  cbn [fst snd] in *. rewrite forceServerValues_StopWords.
  destruct (nonempty (OpenAIRequest.Stop input)).
  - destruct (append_elems spare h (Config.StopWords (startConfig store
                modelFile)) (OpenAIRequest.Stop input) Hwf) as [Hel Hwf'].
    rewrite <- Hsw in Hel, Hwf'. cbn [fst snd] in Hel, Hwf'.
    rewrite Hel. repeat split.
    + rewrite length_app. cbn. lia.
    + by rewrite take_app_length.
    + by rewrite last_snoc.
    + apply Hwf'.
    + apply Hwf'.
  - by injection Hsw as -> ->.
Qed.

(** C7 on the stored profile "vicuna", whose stop list shows "###": a
    request with the stop value "User:" resolves to the two stop words
    "###" and "User:"; a request without a stop value to "###" alone.  On
    the default profile, which has no stop word, the same request resolves
    to "User:" alone. *)
Lemma stop_appended_witness :
  (let r := mergeConfig Demo.spare 0 0 false Demo.roomy_store Demo.roomy_heap
              "vicuna" (Demo.request "vicuna" "User:" 1) in
   Slice.elems (snd r) (Config.StopWords (fst r)) = ["###"; "User:"])
  /\ (let r := mergeConfig Demo.spare 0 0 false Demo.roomy_store
                 Demo.roomy_heap "vicuna" (Demo.request "vicuna" "" 1) in
      Slice.elems (snd r) (Config.StopWords (fst r)) = ["###"])
  /\ (let r := mergeConfig Demo.spare 0 0 false ∅ ∅ "ggml.bin"
                 (Demo.request "ggml.bin" "User:" 1) in
      Slice.elems (snd r) (Config.StopWords (fst r)) = ["User:"]).
Proof.
  assert (Hwf : Slice.wf Demo.roomy_heap
                  (Config.StopWords (startConfig Demo.roomy_store "vicuna"))).
  { split; vm_compute; lia. }
  split; [|split].
  - apply (stop_appended Demo.spare 0 0 false Demo.roomy_store Demo.roomy_heap
             "vicuna" (Demo.request "vicuna" "User:" 1) Hwf).
  - apply (stop_appended Demo.spare 0 0 false Demo.roomy_store Demo.roomy_heap
             "vicuna" (Demo.request "vicuna" "" 1) Hwf).
  - assert (Hnull : Slice.wf ∅ (Config.StopWords (startConfig ∅ "ggml.bin")))
      by (split; vm_compute; lia).
    pose proof (stop_appended Demo.spare 0 0 false ∅ ∅ "ggml.bin"
                  (Demo.request "ggml.bin" "User:" 1) Hnull) as Hstop.
    cbv zeta in Hstop.
    change (nonempty (OpenAIRequest.Stop (Demo.request "ggml.bin" "User:" 1)))
      with true in Hstop.
    cbv iota in Hstop. destruct Hstop as [Hstop _].
    cbv zeta. rewrite Hstop. vm_compute. reflexivity.
Defined.

(** ** C8: loading a directory *)

(** C8: [loadDirectory] returns an error exactly when the directory cannot
    be listed, whatever the files in it decode to.  For a directory of two
    profile files of which one decodes and the other does not (for every
    heap it is read on), in either order of listing, the call succeeds and
    the Store is the old one with the decoded profile put under its name:
    the file that does not decode adds nothing. *)
Theorem loadDirectory_resilient (sys : System) (cm : gmap string Config.t)
    (h : gmap nat (list string)) (path : string) :
  (forall err, ioutil_ReadDir sys path = Failure err ->
     LoadConfigs sys cm h path = (Some err, cm, h))
  /\ (forall files, ioutil_ReadDir sys path = Success files ->
        fst (fst (LoadConfigs sys cm h path)) = None)
  /\ (forall good bad c h',
        GoStrings.Contains good ".yaml" = true ->
        GoStrings.Contains bad ".yaml" = true ->
        ReadConfig sys (filepath_Join sys path good) h = Success (c, h') ->
        (forall h0, exists err,
            ReadConfig sys (filepath_Join sys path bad) h0 = Failure err) ->
        (ioutil_ReadDir sys path = Success [good; bad]
         \/ ioutil_ReadDir sys path = Success [bad; good]) ->
        LoadConfigs sys cm h path = (None, <[Config.Name c := c]> cm, h')
        /\ snd (fst (LoadConfigs sys cm h path)) !! Config.Name c = Some c).
Proof.
  split; [|split].
  - intros err Hdir. unfold LoadConfigs. by rewrite Hdir.
  - intros files Hdir. unfold LoadConfigs. by rewrite Hdir.
  - intros good bad c h' Hgood Hbad Hread Hfail Hdir.
    assert (Hload : LoadConfigs sys cm h path
                    = (None, <[Config.Name c := c]> cm, h')).
    { unfold LoadConfigs.
      destruct Hdir as [-> | ->]; cbn [foldl]; unfold LoadConfigs_step;
        rewrite ?Hgood, ?Hbad; cbn [negb fst snd].
      - rewrite Hread. cbn [fst snd].
        destruct (Hfail h') as [err ->]. done.
      - destruct (Hfail h) as [err ->]. cbn [fst snd].
        by rewrite Hread. }
    split; [exact Hload|].
    rewrite Hload. cbn [fst snd]. apply lookup_insert_eq.
Qed.

(** C8 on the demo disk: "profiles" holds "bad.yaml", which does not
    decode, and "good.yaml"; loading the directory succeeds and stores the
    profile "good".  A directory that is not there makes the call fail. *)
Lemma loadDirectory_resilient_witness :
  (let r := LoadConfigs Demo.sys ∅ ∅ "profiles" in
   fst (fst r) = None
   /\ snd (fst r) = {[ "good" := fst (Demo.named "good" 0 ["###"] ∅) ]})
  /\ LoadConfigs Demo.sys ∅ ∅ "nowhere"
     = (Some (Foreign "no such file or directory"), ∅, ∅).
Proof.
  destruct (loadDirectory_resilient Demo.sys ∅ ∅ "profiles")
    as (_ & _ & Htwo).
  destruct (Htwo "good.yaml" "bad.yaml" (fst (Demo.named "good" 0 ["###"] ∅))
              (snd (Demo.named "good" 0 ["###"] ∅))) as [Hload _].
  - reflexivity.
  - reflexivity.
  - reflexivity.
  - intros h0. eexists. reflexivity.
  - right. reflexivity.
  - split.
    + rewrite Hload. cbn [fst snd]. split; [reflexivity|].
      apply insert_empty.
    + apply (proj1 (loadDirectory_resilient Demo.sys ∅ ∅ "nowhere")).
      reflexivity.
Defined.

(** ** C9: which template, and what if it is not there *)

(** Neither [updateConfig] nor the forced values touch [config.Model]: it
    is the model field of the starting profile, which for the default
    profile is the model the request runs on. *)
Lemma mergeConfig_Model (spare : nat -> nat) (threads ctx : Z) (f16 : bool)
    (store : gmap string Config.t) (h : gmap nat (list string))
    (modelFile : string) (input : OpenAIRequest.t) :
  Config.Model (fst (mergeConfig spare threads ctx f16 store h modelFile input))
    = Config.Model (startConfig store modelFile)
  /\ (store !! modelFile = None ->
      Config.Model
        (fst (mergeConfig spare threads ctx f16 store h modelFile input))
      = modelFile).
Proof.
  assert (Hmodel :
    Config.Model
      (fst (mergeConfig spare threads ctx f16 store h modelFile input))
    = Config.Model (startConfig store modelFile)).
  { unfold mergeConfig.
    destruct (updateConfig spare (startConfig store modelFile) h input)
      as [merged h'] eqn:Hupd.
    cbn [fst]. unfold Config.Model. rewrite forceServerValues_request.
    replace merged
      with (fst (updateConfig spare (startConfig store modelFile) h input))
      by (by rewrite Hupd).
    rewrite updateConfig_request. cbv zeta.
    read_field; reflexivity. }
  split; [exact Hmodel|].
  intros Hnone. rewrite Hmodel. unfold startConfig. by rewrite Hnone.
Qed.



(** ** C10: the handler and the Profile Store *)

Section StoreFrame.

Context {RE St : Type}.
Variable sys : System.
Variable loader : ModelLoader.
Variable regexp : Regexp RE.
Variable ModelInference :
  string -> Config.t -> gmap nat (list string) -> St ->
  result (PredFunc St) * St.
Variable spare : nat -> nat.

(** Inference and sampling leave the store and the heap alone. *)
Lemma predict_frame chat config predInput input (w : World RE St) :
  let w' := snd (predict regexp ModelInference chat config predInput input w)
  in cm w' = cm w /\ heap w' = heap w.
Proof.
  cbv zeta. unfold predict.
  destruct (ModelInference predInput config (heap w) (engine w))
    as [[predFunc|err] s']; [|done].
  by destruct (sample _ _ _ _ _ _ _ _) as [[r cache'] s''].
Qed.

(** The heap after the merge. *)
Lemma mergeConfig_heap threads ctx f16 store h modelFile input :
  snd (mergeConfig spare threads ctx f16 store h modelFile input)
  = if nonempty (OpenAIRequest.Stop input)
    then snd (Slice.append spare h
                (Config.StopWords (startConfig store modelFile))
                (OpenAIRequest.Stop input))
    else h.
Proof.
  unfold mergeConfig.
  pose proof (updateConfig_StopWords spare (startConfig store modelFile) h
                input) as Hsw.
  cbv zeta in Hsw.
  destruct (updateConfig spare (startConfig store modelFile) h input)
    as [merged h'].
  cbn [fst snd] in *.
  destruct (nonempty (OpenAIRequest.Stop input)).
  - by rewrite <- Hsw.
  - by injection Hsw.
Qed.

(** Loading a list of profiles touches the entries they name and no
    other. *)
Lemma inserts_other (configs : list Config.t) (k : string) :
  forall store : gmap string Config.t,
  Forall (fun cc => Config.Name cc <> k) configs ->
  foldl (fun m cc => <[Config.Name cc := cc]> m) store configs !! k
  = store !! k.
Proof.
  induction configs as [|cc configs IH]; intros store Hall; [done|].
  inversion Hall as [|? ? Hcc Hrest]; subst. cbn [foldl].
  rewrite IH by done. by rewrite lookup_insert_ne.
Qed.

(** What the companion load does to the store. *)
Lemma loadCompanion_store modelFile (w : World RE St) :
  let modelConfig :=
    filepath_Join sys (ModelPath loader) (modelFile +:+ ".yaml") in
  cm (snd (loadCompanion sys loader modelFile w))
  = if os_Stat sys modelConfig then
      match ReadConfigFile sys modelConfig (heap w) with
      | Success (configs, _) =>
          foldl (fun m cc => <[Config.Name cc := cc]> m) (cm w)
            (loaded configs)
      | Failure _ => cm w
      end
    else cm w.
Proof.
  cbv zeta. unfold loadCompanion.
  destruct (os_Stat sys _); [|done].
  unfold LoadConfig.
  destruct (ReadConfigFile sys _ (heap w)) as [[configs h']|err]; [|done].
  cbn [fst snd cm]. apply LoadConfig_range_store.
Qed.

(** The store and the heap a request leaves, from those the companion
    load left. *)
Lemma openAIEndpoint_world chat debug threads ctx f16 (c : Ctx)
    (w : World RE St) input modelFile :
  BodyParser c = Success input ->
  selectModel loader input (Get c "authorization") = Success modelFile ->
  let w1 := snd (loadCompanion sys loader modelFile w) in
  let w' := snd (openAIEndpoint sys loader regexp ModelInference spare chat
                   debug threads ctx f16 c w) in
  cm w' = cm w1
  /\ (heap w' = heap w1
      \/ heap w' = snd (mergeConfig spare threads ctx f16 (cm w1) (heap w1)
                          modelFile input)).
Proof.
  intros Hbody Hsel. cbv zeta.
  unfold openAIEndpoint, resolveConfig. rewrite Hbody, Hsel.
  destruct (loadCompanion sys loader modelFile w) as [[u|err|] w1];
    cbn [snd]; [|by auto|by auto].
  destruct (mergeConfig spare threads ctx f16 (cm w1) (heap w1) modelFile
              input) as [config h'].
  cbn [snd].
  match goal with
  | |- context [predict ?r ?m ?ch ?cf ?p ?i ?w0] =>
      destruct (predict_frame ch cf p i w0) as [Hcm Hheap]
  end.
  rewrite Hcm, Hheap. cbn [cm heap]. auto.
Qed.

End StoreFrame.

(** C10: a request changes the Profile Store only through the load of the
    companion file.  The map the handler leaves is the map that load left
    (the map it found, when there is no companion file, and in any case at
    every name that no record of the companion file carries, of those up
    to a nil entry of the list): merging the overrides
    and the forced values works on a copy of the entry.  The
    stop words seen through a stored entry stay the same too, although
    [append] may write into the backing array the copy shares with it:
    for the entry the request starts from, and for every entry that does
    not look into that array beyond the end of the starting entry's
    slice. *)
Theorem store_frame {RE St : Type} (sys : System) (loader : ModelLoader)
    (regexp : Regexp RE)
    (ModelInference :
       string -> Config.t -> gmap nat (list string) -> St ->
       result (PredFunc St) * St)
    (spare : nat -> nat) (chat debug : bool) (threads ctx : Z) (f16 : bool)
    (c : Ctx) (w : World RE St) :
  let w' := snd (openAIEndpoint sys loader regexp ModelInference spare chat
                   debug threads ctx f16 c w) in
  match BodyParser c with
  | Failure _ => w' = w
  | Success input =>
      match selectModel loader input (Get c "authorization") with
      | Failure _ => w' = w
      | Success modelFile =>
          let w1 := snd (loadCompanion sys loader modelFile w) in
          let s0 := Config.StopWords (startConfig (cm w1) modelFile) in
          let modelConfig :=
            filepath_Join sys (ModelPath loader) (modelFile +:+ ".yaml") in
          cm w' = cm w1
          /\ (os_Stat sys modelConfig = false -> cm w' = cm w)
          /\ (forall k,
                (forall configs h',
                    ReadConfigFile sys modelConfig (heap w)
                      = Success (configs, h') ->
                    Forall (fun cc => Config.Name cc <> k)
                      (loaded configs)) ->
                cm w' !! k = cm w !! k)
          /\ (forall cfg,
                cm w1 !! modelFile = Some cfg ->
                Slice.wf (heap w1) (Config.StopWords cfg) ->
                cm w' !! modelFile = Some cfg
                /\ Slice.elems (heap w') (Config.StopWords cfg)
                   = Slice.elems (heap w1) (Config.StopWords cfg))
          /\ (forall k cfg,
                cm w1 !! k = Some cfg ->
                Slice.wf (heap w1) (Config.StopWords cfg) ->
                (Slice.arr (Config.StopWords cfg) = Slice.arr s0 ->
                 Slice.len (Config.StopWords cfg) <= Slice.len s0) ->
                cm w' !! k = Some cfg
                /\ Slice.elems (heap w') (Config.StopWords cfg)
                   = Slice.elems (heap w1) (Config.StopWords cfg))
      end
  end.
Proof.
  cbv zeta.
  destruct (BodyParser c) as [input|err] eqn:Hbody.
  2: { unfold openAIEndpoint. by rewrite Hbody. }
  destruct (selectModel loader input (Get c "authorization"))
    as [modelFile|err] eqn:Hsel.
  2: { unfold openAIEndpoint, resolveConfig. by rewrite Hbody, Hsel. }
  destruct (openAIEndpoint_world sys loader regexp ModelInference spare chat
              debug threads ctx f16 c w input modelFile Hbody Hsel)
    as [Hcm Hheap].
  cbv zeta in Hcm, Hheap.
  assert (Hframe : forall k cfg,
            cm (snd (loadCompanion sys loader modelFile w)) !! k = Some cfg ->
            Slice.wf (heap (snd (loadCompanion sys loader modelFile w)))
              (Config.StopWords cfg) ->
            (Slice.arr (Config.StopWords cfg)
             = Slice.arr (Config.StopWords
                            (startConfig
                               (cm (snd (loadCompanion sys loader modelFile w)))
                               modelFile)) ->
             Slice.len (Config.StopWords cfg)
             <= Slice.len (Config.StopWords
                             (startConfig
                                (cm (snd (loadCompanion sys loader modelFile
                                            w))) modelFile))) ->
            cm (snd (openAIEndpoint sys loader regexp ModelInference spare
                       chat debug threads ctx f16 c w)) !! k = Some cfg
            /\ Slice.elems
                 (heap (snd (openAIEndpoint sys loader regexp ModelInference
                               spare chat debug threads ctx f16 c w)))
                 (Config.StopWords cfg)
               = Slice.elems (heap (snd (loadCompanion sys loader modelFile w)))
                   (Config.StopWords cfg)).
  { intros k cfg Hk Hwf Hshare. rewrite Hcm. split; [exact Hk|].
    destruct Hheap as [-> | ->]; [done|].
    rewrite mergeConfig_heap.
    destruct (nonempty (OpenAIRequest.Stop input)); [|done].
    by apply append_frame. }
  split; [exact Hcm|]. split; [|split; [|split]].
  - intros Hstat. rewrite Hcm. unfold loadCompanion. by rewrite Hstat.
  - intros k Hk. rewrite Hcm, loadCompanion_store.
    destruct (os_Stat sys _); [|done].
    destruct (ReadConfigFile sys _ (heap w)) as [[configs h']|err] eqn:Hread;
      [|done].
    apply inserts_other. by apply (Hk configs h').
  - intros cfg Hk Hwf. apply Hframe; [done | done |].
    unfold startConfig. by rewrite Hk.
  - exact Hframe.
Qed.

(** C10 on the demo installation: the stored profile "vicuna" has room
    for one more stop word, so the request's stop value "User:" is written
    into the very array the stored entry points to; the Store is as it
    was all the same, and the entry still shows the one stop word
    "###". *)
Lemma store_frame_witness :
  let w' := snd (openAIEndpoint Demo.sys Demo.loader Demo.literal_regexp
                   (Demo.ModelInference 7) Demo.spare false false 4 512 true
                   (Demo.ctx (Demo.request "vicuna" "User:" 1) "")
                   Demo.roomy_world) in
  cm w' = Demo.roomy_store
  /\ heap w' = {[ 1 := ["###"; "User:"] ]}
  /\ Slice.elems (heap w') (Config.StopWords Demo.roomy_config) = ["###"].
Proof.
  cbv zeta.
  pose proof (store_frame Demo.sys Demo.loader Demo.literal_regexp
                (Demo.ModelInference 7) Demo.spare false false 4 512 true
                (Demo.ctx (Demo.request "vicuna" "User:" 1) "")
                Demo.roomy_world) as Hframe.
  cbv zeta in Hframe.
  change (BodyParser (Demo.ctx (Demo.request "vicuna" "User:" 1) ""))
    with (Success (Demo.request "vicuna" "User:" 1)) in Hframe.
  change (selectModel Demo.loader (Demo.request "vicuna" "User:" 1)
            (Get (Demo.ctx (Demo.request "vicuna" "User:" 1) "")
               "authorization"))
    with (@Success string "vicuna") in Hframe.
  cbv iota beta in Hframe.
  destruct Hframe as (_ & Hcm & _ & Hentry & _).
  split; [|split].
  - apply Hcm. reflexivity.
  - vm_compute. reflexivity.
  - destruct (Hentry Demo.roomy_config) as [_ Hel].
    + vm_compute. reflexivity.
    + split; vm_compute; lia.
    + rewrite Hel. vm_compute. reflexivity.
Defined.

(** * Further properties of the code *)

(** ** [listModels] *)

Lemma listModels_listed_spec (models : list string) :
  forall (mm : gmap string unit) (d : list OpenAIModel.t),
  let st := foldl (fun st m => (<[m := tt]> (fst st), snd st ++ [modelEntry m]))
              (mm, d) models in
  snd st = d ++ map modelEntry models
  /\ forall k, is_Some (fst st !! k) <-> is_Some (mm !! k) \/ k ∈ models.
Proof.
  induction models as [|m models IH]; intros mm d; cbn [foldl fst snd map].
  - rewrite app_nil_r. split; [done|]. intros k. rewrite elem_of_nil. tauto.
  - destruct (IH (<[m := tt]> mm) (d ++ [modelEntry m])) as [Hd Hmm].
    cbv zeta in Hd, Hmm. split.
    + rewrite Hd, <- app_assoc. done.
    + intros k. rewrite Hmm, elem_of_cons, lookup_insert.
      case_decide as Heq.
      * subst k. split; [intros _; right; by left | intros _; left; by eexists].
      * split; [intros [?|?]; auto | intros [?|[?|?]]; auto; congruence].
Qed.

Lemma listModels_stored_spec (mm : gmap string unit) (order : list string) :
  forall d : list OpenAIModel.t,
  listModels_stored mm d order
  = d ++ map modelEntry (filter (fun k => mm !! k = None) order).
Proof.
  unfold listModels_stored.
  induction order as [|k order IH]; intros d; cbn [foldl].
  - by rewrite filter_nil, app_nil_r.
  - rewrite IH. destruct (mm !! k) as [[]|] eqn:Hk.
    + rewrite filter_cons_False by (rewrite Hk; done). done.
    + rewrite filter_cons_True by done. cbn [map].
      by rewrite <- app_assoc.
Qed.

Lemma listModels_ids (loader : ModelLoader) (order : list string)
    (models : list string) :
  ListModels loader = (models, None) ->
  exists r,
    listModels loader order = Success r
    /\ ModelList.Object r = "list"
    /\ ModelList.Data r
       = map modelEntry (models ++ filter (fun k => k ∉ models) order).
Proof.
  intros Hlist. unfold listModels. rewrite Hlist.
  eexists. split; [reflexivity|]. split; [reflexivity|].
  cbn [ModelList.Data]. unfold listModels_listed.
  destruct (listModels_listed_spec models ∅ []) as [Hd Hmm].
  cbv zeta in Hd, Hmm. rewrite listModels_stored_spec, Hd. cbn [app].
  rewrite map_app. f_equal. f_equal.
  apply list_filter_iff. intros k. specialize (Hmm k).
  rewrite lookup_empty in Hmm.
  rewrite eq_None_not_Some, Hmm. split.
  - intros Hn Hin. apply Hn. by right.
  - intros Hn [[? ?]|Hin]; [done|by apply Hn].
Qed.

(** X1: [listModels] fails exactly when the loader cannot list the models,
    with the loader's error. Otherwise it answers with a "list" whose
    entries are all tagged "model": first the listed models in the loader's
    order, then names of the Profile Store; a name is in the answer exactly
    when it is a listed model or a key of the Store. *)
Theorem listModels_union (loader : ModelLoader) (cm : gmap string Config.t)
    (order : list string) :
  range_of cm order ->
  match ListModels loader with
  | (_, Some err) => listModels loader order = Failure err
  | (models, None) =>
      exists r,
        listModels loader order = Success r
        /\ ModelList.Object r = "list"
        /\ (forall e, e ∈ ModelList.Data r -> OpenAIModel.Object e = "model")
        /\ take (length models) (ids (ModelList.Data r)) = models
        /\ (forall id,
              id ∈ ids (ModelList.Data r)
              <-> id ∈ models \/ is_Some (cm !! id))
  end.
Proof.
  intros [Hnd Hrange].
  destruct (ListModels loader) as [models [err|]] eqn:Hlist.
  - unfold listModels. by rewrite Hlist.
  - destruct (listModels_ids loader order models Hlist)
      as (r & Hr & Hobj & Hdata).
    exists r. split; [done|]. split; [done|].
    assert (Hids : ids (ModelList.Data r)
                   = models ++ filter (fun k => k ∉ models) order).
    { unfold ids. rewrite Hdata, map_map. cbn. apply map_id. }
    split; [|split].
    + intros e. rewrite Hdata. intros Hin.
      apply list_elem_of_fmap in Hin as (k & -> & _). done.
    + rewrite Hids. apply take_app_length.
    + intros id. rewrite Hids, elem_of_app, list_elem_of_filter, Hrange.
      destruct (decide (id ∈ models)); tauto.
Qed.

(** X2: every name comes once: when the loader lists no model twice, no
    identifier is twice in the answer of [listModels], also not a name that
    is both a listed model and a key of the Store. *)
Theorem listModels_nodup (loader : ModelLoader) (cm : gmap string Config.t)
    (order : list string) (r : ModelList.t) :
  range_of cm order ->
  NoDup (fst (ListModels loader)) ->
  listModels loader order = Success r ->
  NoDup (ids (ModelList.Data r)).
Proof.
  intros [Hnd Hrange] Hmodels Hr.
  destruct (ListModels loader) as [models [err|]] eqn:Hlist.
  { unfold listModels in Hr. by rewrite Hlist in Hr. }
  destruct (listModels_ids loader order models Hlist)
    as (r' & Hr' & _ & Hdata).
  rewrite Hr in Hr'. injection Hr' as <-.
  unfold ids. rewrite Hdata, map_map. cbn. rewrite map_id.
  apply NoDup_app. split; [done|]. split.
  - intros k Hin Hf. apply list_elem_of_filter in Hf as [Hn _]. by apply Hn.
  - by apply NoDup_filter.
Qed.

(** No string twice in a list of literals. *)
Ltac nodup_literals :=
  repeat (apply NoDup_cons_2;
          [rewrite ?elem_of_cons, ?elem_of_nil; intuition discriminate|]);
  apply NoDup_nil_2.

Lemma site_range : range_of Site.store Site.order.
Proof.
  split.
  - unfold Site.order. nodup_literals.
  - intros k. unfold Site.order, Site.store, Demo.roomy_store.
    rewrite elem_of_cons, list_elem_of_singleton, lookup_insert_is_Some',
      lookup_singleton_is_Some.
    intuition congruence.
Qed.

(** On the demo installation the loader lists "ggml.bin" and "gpt4all" and
    the Store holds "vicuna" and "gpt4all". *)
Lemma listModels_union_witness :
  exists r,
    listModels Demo.loader Site.order = Success r
    /\ ModelList.Object r = "list"
    /\ (forall e, e ∈ ModelList.Data r -> OpenAIModel.Object e = "model")
    /\ take 2 (ids (ModelList.Data r)) = ["ggml.bin"; "gpt4all"]
    /\ (forall id,
          id ∈ ids (ModelList.Data r)
          <-> id ∈ ["ggml.bin"; "gpt4all"] \/ is_Some (Site.store !! id)).
Proof.
  exact (listModels_union Demo.loader Site.store Site.order site_range).
Defined.

Lemma listModels_nodup_witness :
  NoDup (ids (ModelList.Data
                {| ModelList.Object := "list";
                   ModelList.Data :=
                     map modelEntry ["ggml.bin"; "gpt4all"; "vicuna"] |})).
Proof.
  apply (listModels_nodup Demo.loader Site.store Site.order _ site_range).
  - cbn. nodup_literals.
  - reflexivity.
Defined.

(** ** What a request can and cannot change in the configuration *)

Section MergeFrame.

Variable spare : nat -> nat.

(** A field that none of the assignments of [updateConfig] writes keeps
    its value. *)
Lemma updateConfig_frame {B : Type} (p : Config.t -> B) config h input :
  (forall v c, p (Config.set_OpenAIRequest v c) = p c) ->
  (forall v c, p (Config.set_StopWords v c) = p c) ->
  (forall v c, p (Config.set_F16 v c) = p c) ->
  p (fst (updateConfig spare config h input)) = p config.
Proof.
  intros Hreq Hsw Hf16.
  assert (Hupd : forall b f c, p (when b (Config.upd f) c) = p c).
  { intros b f c. destruct b; [apply Hreq | done]. }
  assert (Hwf : forall b v c, p (when b (Config.set_F16 v) c) = p c).
  { intros b v c. destruct b; [apply Hf16 | done]. }
  unfold updateConfig.
  destruct (nonempty (OpenAIRequest.Stop input));
    [destruct (Slice.append _ _ _ _) as [s h']|]; cbn [fst];
    repeat first [rewrite Hupd | rewrite Hwf | rewrite Hsw]; reflexivity.
Qed.

Lemma forceServerValues_frame {B : Type} (p : Config.t -> B) threads ctx f16
    config :
  (forall v c, p (Config.set_Threads v c) = p c) ->
  (forall v c, p (Config.set_ContextSize v c) = p c) ->
  (forall v c, p (Config.set_F16 v c) = p c) ->
  p (forceServerValues threads ctx f16 config) = p config.
Proof.
  intros Ht Hc Hf. unfold forceServerValues.
  destruct (nonzero threads), (nonzero ctx), f16; cbn [when];
    rewrite ?Hf, ?Hc, ?Ht; reflexivity.
Qed.

Lemma mergeConfig_frame {B : Type} (p : Config.t -> B) threads ctx f16 store h
    modelFile input :
  (forall v c, p (Config.set_OpenAIRequest v c) = p c) ->
  (forall v c, p (Config.set_StopWords v c) = p c) ->
  (forall v c, p (Config.set_F16 v c) = p c) ->
  (forall v c, p (Config.set_Threads v c) = p c) ->
  (forall v c, p (Config.set_ContextSize v c) = p c) ->
  p (fst (mergeConfig spare threads ctx f16 store h modelFile input))
  = p (startConfig store modelFile).
Proof.
  intros Hreq Hsw Hf Ht Hc. unfold mergeConfig.
  destruct (updateConfig spare (startConfig store modelFile) h input)
    as [merged h'] eqn:Hupd.
  cbn [fst]. rewrite forceServerValues_frame by done.
  replace merged
    with (fst (updateConfig spare (startConfig store modelFile) h input))
    by (by rewrite Hupd).
  by apply updateConfig_frame.
Qed.

End MergeFrame.

(** X3: neither the overrides of a request nor the values the server forces
    reach the profile's name, path, cut strings, trim rules, role table,
    template names or debug flag: the Resolved Configuration has them as the
    starting profile has them (the default profile: all empty). *)
Theorem request_cannot_change (spare : nat -> nat) (threads ctx : Z)
    (f16 : bool) (store : gmap string Config.t) (h : gmap nat (list string))
    (modelFile : string) (input : OpenAIRequest.t) :
  let start := startConfig store modelFile in
  let config :=
    fst (mergeConfig spare threads ctx f16 store h modelFile input) in
  Config.Name config = Config.Name start
  /\ Config.Path config = Config.Path start
  /\ Config.Cutstrings config = Config.Cutstrings start
  /\ Config.TrimSpace config = Config.TrimSpace start
  /\ Config.Roles config = Config.Roles start
  /\ Config.TemplateConfig config = Config.TemplateConfig start
  /\ Config.Debug config = Config.Debug start.
Proof.
  cbv zeta. repeat split; by apply mergeConfig_frame.
Qed.

(** X4: the thread count and the context size of the Resolved Configuration
    are the server's when those are non-zero and the starting profile's
    otherwise; no field of the request reaches them. *)
Theorem forced_threads_and_context (spare : nat -> nat) (threads ctx : Z)
    (f16 : bool) (store : gmap string Config.t) (h : gmap nat (list string))
    (modelFile : string) (input : OpenAIRequest.t) :
  let start := startConfig store modelFile in
  let config :=
    fst (mergeConfig spare threads ctx f16 store h modelFile input) in
  Config.Threads config
    = (if (threads =? 0)%Z then Config.Threads start else threads)
  /\ Config.ContextSize config
     = (if (ctx =? 0)%Z then Config.ContextSize start else ctx).
Proof.
  cbv zeta. unfold mergeConfig.
  destruct (updateConfig spare (startConfig store modelFile) h input)
    as [merged h'] eqn:Hupd.
  cbn [fst].
  assert (Hm : merged = fst (updateConfig spare (startConfig store modelFile)
                               h input)) by (by rewrite Hupd).
  assert (Ht : Config.Threads merged
               = Config.Threads (startConfig store modelFile)).
  { rewrite Hm. by apply updateConfig_frame. }
  assert (Hc : Config.ContextSize merged
               = Config.ContextSize (startConfig store modelFile)).
  { rewrite Hm. by apply updateConfig_frame. }
  rewrite <- Ht, <- Hc. unfold forceServerValues, nonzero.
  by destruct (threads =? 0)%Z, (ctx =? 0)%Z, f16.
Qed.

(** X5: a request whose override fields are all zero leaves the
    configuration as it is, the stop list and the heap included; with no
    value forced by the server the Resolved Configuration is then the
    starting profile itself, and for a model without a profile the default
    one. *)
Theorem no_overrides_identity (spare : nat -> nat)
    (store : gmap string Config.t) (h : gmap nat (list string))
    (modelFile : string) (config : Config.t) (input : OpenAIRequest.t) :
  overrides_nothing input = true ->
  updateConfig spare config h input = (config, h)
  /\ mergeConfig spare 0 0 false store h modelFile input
     = (startConfig store modelFile, h)
  /\ (store !! modelFile = None ->
      fst (mergeConfig spare 0 0 false store h modelFile input)
      = Config.of_request (defaultRequest modelFile)).
Proof.
  intros Hnone. unfold overrides_nothing in Hnone.
  repeat (apply andb_prop in Hnone as [Hnone ?]).
  repeat match goal with
         | H : negb _ = true |- _ => apply negb_true_iff in H
         end.
  assert (Hupd : forall c, updateConfig spare c h input = (c, h)).
  { intros c. unfold updateConfig.
    repeat match goal with
           | H : ?b = false |- _ => rewrite H; clear H
           end.
    reflexivity. }
  split; [apply Hupd|].
  assert (Hmerge : mergeConfig spare 0 0 false store h modelFile input
                   = (startConfig store modelFile, h)).
  { unfold mergeConfig. by rewrite Hupd. }
  split; [exact Hmerge|].
  intros Hlook. rewrite Hmerge. unfold startConfig. by rewrite Hlook.
Qed.

Lemma no_overrides_identity_witness :
  mergeConfig Demo.spare 0 0 false Demo.roomy_store Demo.roomy_heap "vicuna"
    (Demo.request "vicuna" "" 3)
  = (Demo.roomy_config, Demo.roomy_heap)
  /\ fst (mergeConfig Demo.spare 0 0 false ∅ ∅ "ggml.bin"
            (Demo.request "ggml.bin" "" 3))
     = Config.of_request (defaultRequest "ggml.bin").
Proof.
  split.
  - rewrite (proj1 (proj2 (no_overrides_identity Demo.spare Demo.roomy_store
                             Demo.roomy_heap "vicuna" Demo.roomy_config
                             (Demo.request "vicuna" "" 3) eq_refl))).
    reflexivity.
  - apply (no_overrides_identity Demo.spare ∅ ∅ "ggml.bin" Demo.roomy_config
             (Demo.request "ggml.bin" "" 3) eq_refl).
    apply lookup_empty.
Defined.

(** ** The pattern cache, panics, and the shape of the response *)

Section HandlerFacts.

Context {RE St : Type}.
Variable sys : System.
Variable loader : ModelLoader.
Variable regexp : Regexp RE.
Variable ModelInference :
  string -> Config.t -> gmap nat (list string) -> St ->
  result (PredFunc St) * St.
Variable spare : nat -> nat.

Lemma cache_extends_refl (cache : gmap string RE) :
  cache_extends regexp cache cache.
Proof. split; auto. Qed.

Lemma cache_extends_trans (c1 c2 c3 : gmap string RE) :
  cache_extends regexp c1 c2 -> cache_extends regexp c2 c3 ->
  cache_extends regexp c1 c3.
Proof.
  intros [H12 H21] [H23 H32]. split; [auto|].
  intros c reg Hc. destruct (H32 c reg Hc) as [Hc2|Hcomp]; auto.
Qed.

Lemma cache_extends_insert (cache : gmap string RE) (c : string) (reg : RE) :
  cache !! c = None -> Compile regexp c = Some reg ->
  cache_extends regexp cache (<[c := reg]> cache).
Proof.
  intros Hnone Hcomp. split; intros c' reg'.
  - intros Hc'. rewrite lookup_insert_ne; [done|]. congruence.
  - rewrite lookup_insert. case_decide as Heq; [|auto].
    subst c'. intros [= <-]. auto.
Qed.

(** The cut strings only add to the cache, and only what they compile;
    they fail only on a pattern that is neither cached nor compiles. *)
Lemma cutAll_cache (cs : list string) :
  forall (cache : gmap string RE) (prediction : string),
  let r := cutAll regexp cs cache prediction in
  cache_extends regexp cache (snd r)
  /\ (fst r = None ->
      exists c, c ∈ cs /\ Compile regexp c = None /\ cache !! c = None).
Proof.
  induction cs as [|c cs IH]; intros cache prediction; cbn [cutAll].
  - split; [apply cache_extends_refl | done].
  - destruct (cache !! c) as [reg|] eqn:Hlook.
    + destruct (IH cache (ReplaceAllString regexp reg prediction ""))
        as [Hext Hfail].
      split; [exact Hext|].
      intros Hnone. destruct (Hfail Hnone) as (c' & Hin & Hcomp & Hc').
      exists c'. split; [by right | done].
    + destruct (Compile regexp c) as [reg|] eqn:Hcomp.
      * destruct (IH (<[c := reg]> cache)
                    (ReplaceAllString regexp reg prediction ""))
          as [Hext Hfail].
        split.
        -- eapply cache_extends_trans; [|exact Hext].
           by apply cache_extends_insert.
        -- intros Hnone. destruct (Hfail Hnone) as (c' & Hin & Hcomp' & Hc').
           exists c'. split; [by right|]. split; [done|].
           rewrite lookup_insert in Hc'. by case_decide.
      * cbn [fst snd]. split; [apply cache_extends_refl|].
        intros _. exists c. split; [by left | done].
Qed.

Lemma postProcess_cache (config : Config.t) (predInput : string)
    (cache : gmap string RE) (prediction : string) :
  let r := postProcess regexp config predInput cache prediction in
  cache_extends regexp cache (snd r)
  /\ (fst r = None ->
      exists c, c ∈ Config.Cutstrings config
                /\ Compile regexp c = None /\ cache !! c = None).
Proof.
  cbv zeta. unfold postProcess, cleanup.
  destruct (cutAll_cache (Config.Cutstrings config) cache
              (if Config.Echo config then predInput +:+ prediction
               else prediction)) as [Hext Hfail].
  destruct (cutAll _ _ _ _) as [[p|] cache']; cbn [fst snd] in *; auto.
  split; [done|]. discriminate.
Qed.

(** What the loop can end in: choices, one per turn, behind those it
    started with; an error of the callable; or a panic over a cut string. *)
Lemma sampleLoop_outcome (chat : bool) (config : Config.t)
    (predInput : string) (predFunc : PredFunc St) (k : nat) :
  forall (result : list Choice.t) (cache : gmap string RE) (s : St),
  let r := sampleLoop regexp chat config predInput predFunc k result cache s
  in
  cache_extends regexp cache (snd (fst r))
  /\ match fst (fst r) with
     | Ok res =>
         exists texts,
           res = result ++ map (mkChoice chat) texts /\ length texts = k
     | Fail _ => True
     | Panic =>
         exists c, c ∈ Config.Cutstrings config
                   /\ Compile regexp c = None /\ cache !! c = None
     end.
Proof.
  induction k as [|k IH]; intros result cache s; cbn [sampleLoop].
  - cbn [fst snd]. split; [apply cache_extends_refl|].
    exists []. by rewrite app_nil_r.
  - destruct (predFunc s) as [[prediction|err] s1]; cbn [fst snd].
    2: { split; [apply cache_extends_refl | done]. }
    destruct (postProcess_cache config predInput cache prediction)
      as [Hext Hfail].
    destruct (postProcess regexp config predInput cache prediction)
      as [[p|] cache1]; cbn [fst snd] in *.
    2: { split; [done | by apply Hfail]. }
    destruct (IH (result ++ [mkChoice chat p]) cache1 s1) as [Hext' Hres].
    split; [by eapply cache_extends_trans|].
    destruct (fst (fst (sampleLoop regexp chat config predInput predFunc k
                          (result ++ [mkChoice chat p]) cache1 s1)))
      as [res|err|].
    + destruct Hres as (texts & -> & Hlen). exists (p :: texts).
      split; [by rewrite <- app_assoc | by cbn; rewrite Hlen].
    + done.
    + destruct Hres as (c & Hin & Hcomp & Hc). exists c.
      split; [done|]. split; [done|].
      destruct (cache !! c) as [reg|] eqn:Hlook; [|done].
      by rewrite (proj1 Hext c reg Hlook) in Hc.
Qed.

(** The same for the handler from [ModelInference] on. *)
Lemma predict_outcome (chat : bool) (config : Config.t) (predInput : string)
    (input : OpenAIRequest.t) (w : World RE St) :
  let r := predict regexp ModelInference chat config predInput input w in
  cache_extends regexp (cutstrings w) (cutstrings (snd r))
  /\ match fst r with
     | Ok resp =>
         exists texts,
           resp = response input (map (mkChoice chat) texts)
           /\ length texts = Z.to_nat (sampleCount input)
     | Fail _ => True
     | Panic =>
         exists c, c ∈ Config.Cutstrings config
                   /\ Compile regexp c = None /\ cutstrings w !! c = None
     end.
Proof.
  cbv zeta. unfold predict.
  destruct (ModelInference predInput config (heap w) (engine w))
    as [[predFunc|err] s1]; cbn [fst snd cutstrings].
  2: { split; [apply cache_extends_refl | done]. }
  unfold sample.
  destruct (sampleLoop_outcome chat config predInput predFunc
              (Z.to_nat (sampleCount input)) [] (cutstrings w) s1)
    as [Hext Hres].
  destruct (sampleLoop regexp chat config predInput predFunc
              (Z.to_nat (sampleCount input)) [] (cutstrings w) s1)
    as [[[res|err|] cache'] s2]; cbn [fst snd cutstrings] in *;
    (split; [done|]); [|done|done].
  destruct Hres as (texts & -> & Hlen). by exists texts.
Qed.

(** Resolution touches neither the pattern cache nor the engine. *)
Lemma resolveConfig_rest threads ctx f16 input authorization
    (w : World RE St) :
  let w1 := snd (resolveConfig sys loader spare threads ctx f16 input
                   authorization w) in
  cutstrings w1 = cutstrings w /\ engine w1 = engine w.
Proof.
  cbv zeta. unfold resolveConfig.
  destruct (selectModel loader input authorization) as [modelFile|err];
    [|done].
  unfold loadCompanion.
  destruct (os_Stat sys _).
  - destruct (LoadConfig sys (cm w) (heap w) _) as [[[u|err|] cm'] h'];
      [|done|done].
    by destruct (mergeConfig _ _ _ _ _ _ _ _).
  - by destruct (mergeConfig _ _ _ _ _ _ _ _).
Qed.

(** The configuration that resolution hands on has the cut strings of the
    profile it started from. *)
Lemma resolveConfig_Cutstrings threads ctx f16 input authorization
    (w w1 : World RE St) (config : Config.t) :
  resolveConfig sys loader spare threads ctx f16 input authorization w
    = (Ok config, w1) ->
  exists modelFile,
    selectModel loader input authorization = Success modelFile
    /\ Config.Cutstrings config
       = Config.Cutstrings
           (startConfig (cm (snd (loadCompanion sys loader modelFile w)))
              modelFile).
Proof.
  unfold resolveConfig.
  destruct (selectModel loader input authorization) as [modelFile|err];
    [|done].
  intros Hres. exists modelFile. split; [done|]. revert Hres.
  destruct (loadCompanion sys loader modelFile w) as [[u|err|] w0];
    [|done|done].
  destruct (mergeConfig spare threads ctx f16 (cm w0) (heap w0) modelFile
              input) as [config0 h'] eqn:Hmerge.
  intros [= <- <-]. cbn [snd].
  replace config0
    with (fst (mergeConfig spare threads ctx f16 (cm w0) (heap w0) modelFile
                 input)) by (by rewrite Hmerge).
  by apply mergeConfig_frame.
Qed.

(** Resolution panics only over a nil entry in the list of the companion
    file. *)
Lemma resolveConfig_Panic threads ctx f16 input authorization
    (w : World RE St) :
  fst (resolveConfig sys loader spare threads ctx f16 input authorization w)
    = Panic ->
  exists modelFile configs h',
    selectModel loader input authorization = Success modelFile
    /\ os_Stat sys
         (filepath_Join sys (ModelPath loader) (modelFile +:+ ".yaml"))
       = true
    /\ ReadConfigFile sys
         (filepath_Join sys (ModelPath loader) (modelFile +:+ ".yaml"))
         (heap w)
       = Success (configs, h')
    /\ None ∈ configs.
Proof.
  unfold resolveConfig, loadCompanion, LoadConfig.
  destruct (selectModel loader input authorization) as [modelFile|err];
    [|done].
  destruct (os_Stat sys _) eqn:Hstat.
  - destruct (ReadConfigFile sys _ (heap w)) as [[configs h']|err] eqn:Hread;
      [|done].
    cbn [fst snd].
    destruct (fst (LoadConfig_range (cm w) configs)) as [u|err|] eqn:Hrange.
    + by destruct (mergeConfig _ _ _ _ _ _ _ _).
    + done.
    + intros _. exists modelFile, configs, h'.
      repeat split; try done. by apply (LoadConfig_range_nil configs (cm w)).
  - by destruct (mergeConfig _ _ _ _ _ _ _ _).
Qed.

(** The handler as a whole. *)
Lemma openAIEndpoint_outcome chat debug threads ctx f16 (c : Ctx)
    (w : World RE St) :
  let r := openAIEndpoint sys loader regexp ModelInference spare chat debug
             threads ctx f16 c w in
  cache_extends regexp (cutstrings w) (cutstrings (snd r))
  /\ match fst r with
     | Ok resp =>
         exists input texts,
           BodyParser c = Success input
           /\ resp = response input (map (mkChoice chat) texts)
           /\ length texts = Z.to_nat (sampleCount input)
     | Fail _ => True
     | Panic =>
         exists input modelFile,
           BodyParser c = Success input
           /\ selectModel loader input (Get c "authorization")
              = Success modelFile
           /\ ((os_Stat sys
                  (filepath_Join sys (ModelPath loader)
                     (modelFile +:+ ".yaml")) = true
                /\ exists configs h',
                     ReadConfigFile sys
                       (filepath_Join sys (ModelPath loader)
                          (modelFile +:+ ".yaml")) (heap w)
                     = Success (configs, h')
                     /\ None ∈ configs)
               \/ exists pat,
                    pat ∈ Config.Cutstrings
                            (startConfig
                               (cm (snd (loadCompanion sys loader modelFile
                                           w)))
                               modelFile)
                    /\ Compile regexp pat = None
                    /\ cutstrings w !! pat = None)
     end.
Proof.
  cbv zeta. unfold openAIEndpoint.
  destruct (BodyParser c) as [input|err]; cbn [fst snd].
  2: { split; [apply cache_extends_refl | done]. }
  destruct (resolveConfig_rest threads ctx f16 input (Get c "authorization") w)
    as [Hcache _].
  destruct (resolveConfig sys loader spare threads ctx f16 input
              (Get c "authorization") w) as [[config|err|] w1] eqn:Hres;
    cbn [fst snd] in *.
  - destruct (predict_outcome chat config
                (applyTemplate loader chat config
                   (buildInput chat config input)) input w1)
      as [Hext Hout].
    rewrite Hcache in Hext, Hout. split; [done|].
    destruct (fst (predict regexp ModelInference chat config _ input w1))
      as [resp|err|].
    + destruct Hout as (texts & -> & Hlen). by exists input, texts.
    + done.
    + destruct Hout as (pat & Hin & Hcomp & Hc).
      destruct (resolveConfig_Cutstrings threads ctx f16 input _ w w1 config
                  Hres) as (modelFile & Hsel & Hcuts).
      exists input, modelFile. split; [done|]. split; [done|]. right.
      exists pat. rewrite <- Hcuts. done.
  - rewrite Hcache. split; [apply cache_extends_refl | done].
  - rewrite Hcache. split; [apply cache_extends_refl|].
    destruct (resolveConfig_Panic threads ctx f16 input
                (Get c "authorization") w)
      as (modelFile & configs & h' & Hsel & Hstat & Hread & Hnil);
      [by rewrite Hres|].
    exists input, modelFile. split; [done|]. split; [done|]. left.
    split; [done|]. by exists configs, h'.
Qed.

End HandlerFacts.

(** X6: the response carries the model name the caller sent, not the model
    the request ran on (a bearer value or the first listed model may have
    been taken instead); its created, object and id fields are left at their
    zero values. *)
Theorem response_envelope {RE St : Type} (sys : System) (loader : ModelLoader)
    (regexp : Regexp RE)
    (ModelInference :
       string -> Config.t -> gmap nat (list string) -> St ->
       result (PredFunc St) * St)
    (spare : nat -> nat) (chat debug : bool) (threads ctx : Z) (f16 : bool)
    (c : Ctx) (w : World RE St) (input : OpenAIRequest.t)
    (resp : OpenAIResponse.t) :
  BodyParser c = Success input ->
  fst (openAIEndpoint sys loader regexp ModelInference spare chat debug
         threads ctx f16 c w) = Ok resp ->
  OpenAIResponse.Model resp = OpenAIRequest.Model input
  /\ OpenAIResponse.Created resp = 0%Z
  /\ OpenAIResponse.Object resp = ""
  /\ OpenAIResponse.ID resp = "".
Proof.
  intros Hbody Hok.
  destruct (openAIEndpoint_outcome sys loader regexp ModelInference spare chat
              debug threads ctx f16 c w) as [_ Hout].
  cbv zeta in Hout. rewrite Hok in Hout.
  destruct Hout as (input' & texts & Hbody' & -> & _).
  rewrite Hbody in Hbody'. by injection Hbody' as <-.
Qed.

(** On the demo installation the request names "vicuna" and runs on
    "gpt4all", the model of its bearer value; the response says
    "vicuna". *)
Lemma response_envelope_witness :
  let c := Demo.ctx (Demo.request "vicuna" "" 2) "Bearer gpt4all" in
  let resp := response (Demo.request "vicuna" "" 2)
                (map (mkChoice true) ["Hello world"; "Hello world"]) in
  selectModel Demo.loader (Demo.request "vicuna" "" 2) "Bearer gpt4all"
    = Success "gpt4all"
  /\ fst (openAIEndpoint Demo.sys Demo.loader Demo.literal_regexp
            (Demo.ModelInference 7) Demo.spare true false 0 0 false c
            Demo.world0) = Ok resp
  /\ OpenAIResponse.Model resp = "vicuna".
Proof.
  cbv zeta.
  assert (Hrun : fst (openAIEndpoint Demo.sys Demo.loader Demo.literal_regexp
                        (Demo.ModelInference 7) Demo.spare true false 0 0
                        false
                        (Demo.ctx (Demo.request "vicuna" "" 2)
                           "Bearer gpt4all") Demo.world0)
                 = Ok (response (Demo.request "vicuna" "" 2)
                         (map (mkChoice true)
                            ["Hello world"; "Hello world"])))
    by (vm_compute; reflexivity).
  split; [reflexivity|]. split; [exact Hrun|].
  apply (response_envelope Demo.sys Demo.loader Demo.literal_regexp
           (Demo.ModelInference 7) Demo.spare true false 0 0 false
           (Demo.ctx (Demo.request "vicuna" "" 2) "Bearer gpt4all")
           Demo.world0 (Demo.request "vicuna" "" 2) _ eq_refl Hrun).
Defined.

(** X7: a response that is emitted has as many choices as the loop has
    turns: the sample count of the request, one when that is zero, none when
    it is negative. In chat mode every choice is an "assistant" message with
    no text field, in completion mode a text with no message; no choice
    carries an index other than zero or a finish reason. *)
Theorem response_choices {RE St : Type} (sys : System) (loader : ModelLoader)
    (regexp : Regexp RE)
    (ModelInference :
       string -> Config.t -> gmap nat (list string) -> St ->
       result (PredFunc St) * St)
    (spare : nat -> nat) (chat debug : bool) (threads ctx : Z) (f16 : bool)
    (c : Ctx) (w : World RE St) (input : OpenAIRequest.t)
    (resp : OpenAIResponse.t) :
  BodyParser c = Success input ->
  fst (openAIEndpoint sys loader regexp ModelInference spare chat debug
         threads ctx f16 c w) = Ok resp ->
  length (OpenAIResponse.Choices resp) = Z.to_nat (sampleCount input)
  /\ ((OpenAIRequest.N input < 0)%Z -> OpenAIResponse.Choices resp = [])
  /\ Forall (choice_shape chat) (OpenAIResponse.Choices resp).
Proof.
  intros Hbody Hok.
  destruct (openAIEndpoint_outcome sys loader regexp ModelInference spare chat
              debug threads ctx f16 c w) as [_ Hout].
  cbv zeta in Hout. rewrite Hok in Hout.
  destruct Hout as (input' & texts & Hbody' & -> & Hlen).
  rewrite Hbody in Hbody'. injection Hbody' as <-.
  cbn [response OpenAIResponse.Choices].
  split; [by rewrite length_map|]. split.
  - intros Hneg. unfold sampleCount in Hlen.
    destruct (Z.eqb_spec (OpenAIRequest.N input) 0) as [Hz|Hz]; [lia|].
    assert (Hzero : Z.to_nat (OpenAIRequest.N input) = 0) by lia.
    rewrite Hzero in Hlen. by destruct texts.
  - apply Forall_forall. intros ch Hin.
    apply list_elem_of_fmap in Hin as (t & -> & _).
    unfold choice_shape, mkChoice. destruct chat; cbn; eauto.
Qed.

Lemma response_choices_witness :
  let c := Demo.ctx (Demo.request "vicuna" "" 2) "Bearer gpt4all" in
  let resp := response (Demo.request "vicuna" "" 2)
                (map (mkChoice true) ["Hello world"; "Hello world"]) in
  length (OpenAIResponse.Choices resp) = 2
  /\ Forall (choice_shape true) (OpenAIResponse.Choices resp).
Proof.
  cbv zeta.
  destruct (response_choices Demo.sys Demo.loader Demo.literal_regexp
              (Demo.ModelInference 7) Demo.spare true false 0 0 false
              (Demo.ctx (Demo.request "vicuna" "" 2) "Bearer gpt4all")
              Demo.world0 (Demo.request "vicuna" "" 2)
              (response (Demo.request "vicuna" "" 2)
                 (map (mkChoice true) ["Hello world"; "Hello world"]))
              eq_refl)
    as (Hlen & _ & Hshape).
  - vm_compute. reflexivity.
  - split; [exact Hlen | exact Hshape].
Defined.

(** X8: over a request the pattern cache only grows: a cached matcher stays
    as it is, and whatever is new in the cache is what [regexp] compiles
    from its pattern. So a cache in which every matcher is the one of its
    pattern stays so. *)
Theorem pattern_cache_grows {RE St : Type} (sys : System)
    (loader : ModelLoader) (regexp : Regexp RE)
    (ModelInference :
       string -> Config.t -> gmap nat (list string) -> St ->
       result (PredFunc St) * St)
    (spare : nat -> nat) (chat debug : bool) (threads ctx : Z) (f16 : bool)
    (c : Ctx) (w : World RE St) :
  let w' := snd (openAIEndpoint sys loader regexp ModelInference spare chat
                   debug threads ctx f16 c w) in
  coherent regexp (cutstrings w) ->
  cache_extends regexp (cutstrings w) (cutstrings w')
  /\ coherent regexp (cutstrings w').
Proof.
  cbv zeta. intros Hcoh.
  destruct (openAIEndpoint_outcome sys loader regexp ModelInference spare chat
              debug threads ctx f16 c w) as [Hext _].
  cbv zeta in Hext. split; [exact Hext|].
  intros pat reg Hpat.
  destruct (proj2 Hext pat reg Hpat) as [Hold|Hnew]; [by apply Hcoh | done].
Qed.

(** On the demo installation a request on the profile "echo" leaves its
    cut string "Hello" in the cache that was empty. *)
Lemma pattern_cache_grows_witness :
  let w' := snd (openAIEndpoint Demo.sys Demo.loader Demo.literal_regexp
                   (Demo.ModelInference 7) Demo.spare false false 0 0 false
                   (Demo.ctx (Demo.request "echo" "" 1) "")
                   Site.echo_world) in
  cutstrings w' = {[ "Hello" := "Hello" ]}
  /\ coherent Demo.literal_regexp (cutstrings w').
Proof.
  cbv zeta. split; [vm_compute; reflexivity|].
  apply (pattern_cache_grows Demo.sys Demo.loader Demo.literal_regexp
           (Demo.ModelInference 7) Demo.spare false false 0 0 false
           (Demo.ctx (Demo.request "echo" "" 1) "") Site.echo_world).
  exact (coherent_empty Demo.literal_regexp).
Defined.

(** X9: the handler panics over two things only.  One is a nil entry in
    the list of the companion file of the model: [LoadConfig] dereferences
    it, whatever the request and the profile are.  The other is a cut
    string of the stored profile the request starts from, one that [regexp]
    does not compile and that the cache did not hold.  A companion file
    that decodes with a nil entry in its list does make the handler
    panic. *)
Theorem panic_causes {RE St : Type} (sys : System)
    (loader : ModelLoader) (regexp : Regexp RE)
    (ModelInference :
       string -> Config.t -> gmap nat (list string) -> St ->
       result (PredFunc St) * St)
    (spare : nat -> nat) (chat debug : bool) (threads ctx : Z) (f16 : bool)
    (c : Ctx) (w : World RE St) :
  let r := fst (openAIEndpoint sys loader regexp ModelInference spare chat
                  debug threads ctx f16 c w) in
  (r = Panic ->
   exists input modelFile,
     BodyParser c = Success input
     /\ selectModel loader input (Get c "authorization") = Success modelFile
     /\ ((os_Stat sys
            (filepath_Join sys (ModelPath loader) (modelFile +:+ ".yaml"))
          = true
          /\ exists configs h',
               ReadConfigFile sys
                 (filepath_Join sys (ModelPath loader)
                    (modelFile +:+ ".yaml")) (heap w)
               = Success (configs, h')
               /\ None ∈ configs)
         \/ exists pat profile,
              cm (snd (loadCompanion sys loader modelFile w)) !! modelFile
              = Some profile
              /\ pat ∈ Config.Cutstrings profile
              /\ Compile regexp pat = None
              /\ cutstrings w !! pat = None))
  /\ (forall input modelFile configs h',
        BodyParser c = Success input ->
        selectModel loader input (Get c "authorization")
          = Success modelFile ->
        os_Stat sys
          (filepath_Join sys (ModelPath loader) (modelFile +:+ ".yaml"))
          = true ->
        ReadConfigFile sys
          (filepath_Join sys (ModelPath loader) (modelFile +:+ ".yaml"))
          (heap w)
          = Success (configs, h') ->
        None ∈ configs ->
        r = Panic).
Proof.
  cbv zeta. split.
  - intros Hpanic.
    destruct (openAIEndpoint_outcome sys loader regexp ModelInference spare
                chat debug threads ctx f16 c w) as [_ Hout].
    cbv zeta in Hout. rewrite Hpanic in Hout.
    destruct Hout as (input & modelFile & Hbody & Hsel & [Hnil|Hcut]).
    + exists input, modelFile. split; [done|]. split; [done|]. by left.
    + destruct Hcut as (pat & Hin & Hcomp & Hc).
      exists input, modelFile. split; [done|]. split; [done|]. right.
      unfold startConfig in Hin.
      destruct (cm (snd (loadCompanion sys loader modelFile w)) !! modelFile)
        as [profile|] eqn:Hlook.
      * by exists pat, profile.
      * cbn in Hin. by apply elem_of_nil in Hin.
  - intros input modelFile configs h' Hbody Hsel Hstat Hread Hnil.
    unfold openAIEndpoint, resolveConfig, loadCompanion, LoadConfig.
    rewrite Hbody, Hsel, Hstat, Hread. cbn [fst snd].
    apply (LoadConfig_range_nil configs (cm w)) in Hnil. by rewrite Hnil.
Qed.

(** On the demo installation the profile "broken" has the cut string "(",
    and a request on it panics at the first sample; the companion file
    "models/vicuna.yaml" has a nil entry, and a request on "vicuna"
    panics. *)
Lemma panic_causes_witness :
  (exists input modelFile,
     BodyParser (Demo.ctx (Demo.request "broken" "" 1) "") = Success input
     /\ selectModel Demo.loader input
          (Get (Demo.ctx (Demo.request "broken" "" 1) "") "authorization")
        = Success modelFile
     /\ ((os_Stat Demo.sys
            (filepath_Join Demo.sys (ModelPath Demo.loader)
               (modelFile +:+ ".yaml")) = true
          /\ exists configs h',
               ReadConfigFile Demo.sys
                 (filepath_Join Demo.sys (ModelPath Demo.loader)
                    (modelFile +:+ ".yaml")) (heap Site.broken_world)
               = Success (configs, h')
               /\ None ∈ configs)
         \/ exists pat profile,
              cm (snd (loadCompanion Demo.sys Demo.loader modelFile
                         Site.broken_world)) !! modelFile = Some profile
              /\ pat ∈ Config.Cutstrings profile
              /\ Compile Demo.literal_regexp pat = None
              /\ cutstrings Site.broken_world !! pat = None))
  /\ fst (openAIEndpoint Site.multi_sys Demo.loader Demo.literal_regexp
            (Demo.ModelInference 7) Demo.spare false false 0 0 false
            (Demo.ctx (Demo.request "vicuna" "" 1) "") Demo.world0)
     = Panic.
Proof.
  split.
  - apply (panic_causes Demo.sys Demo.loader Demo.literal_regexp
             (Demo.ModelInference 7) Demo.spare false false 0 0 false
             (Demo.ctx (Demo.request "broken" "" 1) "") Site.broken_world).
    vm_compute. reflexivity.
  - apply (proj2 (panic_causes Site.multi_sys Demo.loader
                    Demo.literal_regexp (Demo.ModelInference 7) Demo.spare
                    false false 0 0 false
                    (Demo.ctx (Demo.request "vicuna" "" 1) "") Demo.world0)
             (Demo.request "vicuna" "" 1) "vicuna"
             [Some (fst (Demo.named "vicuna" 7 [] ∅)); None] ∅).
    + reflexivity.
    + reflexivity.
    + reflexivity.
    + reflexivity.
    + apply list_elem_of_further, list_elem_of_here.
Defined.

(** ** The loaders of the Profile Store *)

(** After a list of profiles went into the store, a name shows the last
    profile of the list that carries it, and what the store had when no
    profile of the list carries it. *)
Lemma inserts_lookup (configs : list Config.t) (k : string) :
  forall store : gmap string Config.t,
  foldl (fun m cc => <[Config.Name cc := cc]> m) store configs !! k
  = match last (filter (fun cc => Config.Name cc = k) configs) with
    | Some cc => Some cc
    | None => store !! k
    end.
Proof.
  induction configs as [|cc configs IH]; intros store; [done|].
  cbn [foldl]. rewrite IH, filter_cons.
  destruct (decide (Config.Name cc = k)) as [Heq|Hne].
  - rewrite last_cons.
    destruct (last (filter _ configs)); [done|].
    rewrite Heq. apply lookup_insert_eq.
  - destruct (last (filter _ configs)); [done|].
    by rewrite lookup_insert_ne.
Qed.

(** X10: [loadMulti] on a file that decodes returns nil when the list has
    no nil entry and panics at the first nil entry.  Either way, of the
    profiles before that entry, the last one with a given name is the one
    the Store holds afterwards, in place of whatever it held under that
    name; names that none of these profiles carries keep their entries. *)
Theorem LoadConfig_last_wins (sys : System) (cm : gmap string Config.t)
    (h h' : gmap nat (list string)) (file : string)
    (configs : list (option Config.t)) :
  ReadConfigFile sys file h = Success (configs, h') ->
  exists status cm',
    LoadConfig sys cm h file = (status, cm', h')
    /\ (None ∉ configs -> status = Ok tt)
    /\ (None ∈ configs -> status = Panic)
    /\ forall k,
         cm' !! k
         = match last (filter (fun cc => Config.Name cc = k)
                         (loaded configs)) with
           | Some cc => Some cc
           | None => cm !! k
           end.
Proof.
  intros Hread. unfold LoadConfig. rewrite Hread. cbv zeta.
  eexists _, _. split; [reflexivity|]. split; [|split].
  - apply LoadConfig_range_full.
  - apply LoadConfig_range_nil.
  - intros k. rewrite LoadConfig_range_store. apply inserts_lookup.
Qed.

(** On "models/multi.yaml" the load returns nil and the Store ends with
    the second "alpaca", with "koala", and with the "vicuna" it had.  On
    "models/vicuna.yaml" the load panics at the nil entry, and the Store
    has the "vicuna" of the file by then. *)
Lemma LoadConfig_last_wins_witness :
  (exists cm',
     LoadConfig Site.multi_sys Demo.roomy_store ∅ "models/multi.yaml"
       = (Ok tt, cm', ∅)
     /\ Config.TopK <$> cm' !! "alpaca" = Some 3%Z
     /\ Config.TopK <$> cm' !! "koala" = Some 2%Z
     /\ cm' !! "vicuna" = Some Demo.roomy_config)
  /\ (exists cm',
        LoadConfig Site.multi_sys Demo.roomy_store ∅ "models/vicuna.yaml"
          = (Panic, cm', ∅)
        /\ Config.TopK <$> cm' !! "vicuna" = Some 7%Z).
Proof.
  split.
  - destruct (LoadConfig_last_wins Site.multi_sys Demo.roomy_store ∅ ∅
                "models/multi.yaml"
                [Some (fst (Demo.named "alpaca" 1 [] ∅));
                 Some (fst (Demo.named "koala" 2 [] ∅));
                 Some (fst (Demo.named "alpaca" 3 [] ∅))] eq_refl)
      as (status & cm' & Hload & Hok & _ & Hlook).
    exists cm'. rewrite Hok in Hload.
    + split; [exact Hload|].
      rewrite !Hlook. repeat split; vm_compute; reflexivity.
    + intros Hin. repeat (apply elem_of_cons in Hin as [Hin|Hin]; [done|]).
      by apply elem_of_nil in Hin.
  - destruct (LoadConfig_last_wins Site.multi_sys Demo.roomy_store ∅ ∅
                "models/vicuna.yaml"
                [Some (fst (Demo.named "vicuna" 7 [] ∅)); None] eq_refl)
      as (status & cm' & Hload & _ & Hpanic & Hlook).
    exists cm'. rewrite Hpanic in Hload.
    + split; [exact Hload|]. rewrite Hlook. vm_compute. reflexivity.
    + apply list_elem_of_further, list_elem_of_here.
Defined.

Section LoadersKeep.

Variable sys : System.

Lemma inserts_keep (configs : list Config.t) (k : string) :
  forall store : gmap string Config.t,
  is_Some (store !! k) ->
  is_Some (foldl (fun m cc => <[Config.Name cc := cc]> m) store configs !! k).
Proof.
  induction configs as [|cc configs IH]; intros store Hk; [done|].
  cbn [foldl]. apply IH. rewrite lookup_insert_is_Some'. by right.
Qed.

Lemma LoadConfigs_steps_keep path (files : list string) (k : string) :
  forall st : gmap string Config.t * gmap nat (list string),
  is_Some (fst st !! k) ->
  is_Some (fst (foldl (LoadConfigs_step sys path) st files) !! k).
Proof.
  induction files as [|name files IH]; intros st Hk; [done|].
  cbn [foldl]. apply IH. unfold LoadConfigs_step.
  destruct (negb (GoStrings.Contains name ".yaml")); [done|].
  destruct (ReadConfig sys _ (snd st)) as [[c h']|]; [|done].
  cbn [fst]. rewrite lookup_insert_is_Some'. by right.
Qed.

Lemma run_load_keep st op (k : string) :
  is_Some (fst st !! k) -> is_Some (fst (run_load sys st op) !! k).
Proof.
  intros Hk. unfold run_load. destruct op as [file|file|path]; cbn [fst snd].
  - unfold LoadConfigFile.
    destruct (ReadConfig sys file (snd st)) as [[c h']|]; [|done].
    cbn [fst snd]. rewrite lookup_insert_is_Some'. by right.
  - unfold LoadConfig.
    destruct (ReadConfigFile sys file (snd st)) as [[configs h']|]; [|done].
    cbn [fst snd]. rewrite LoadConfig_range_store. by apply inserts_keep.
  - unfold LoadConfigs.
    destruct (ioutil_ReadDir sys path) as [files|]; [|done].
    cbn [fst snd]. by apply LoadConfigs_steps_keep.
Qed.

End LoadersKeep.

(** X11: no load operation takes a name out of the Profile Store: a key that
    is there stays through any sequence of [loadOne], [loadMulti] and
    [loadDirectory], whether they succeed or fail. *)
Theorem run_loads_keep (sys : System) (ops : list load_op)
    (st : gmap string Config.t * gmap nat (list string)) (k : string) :
  is_Some (fst st !! k) -> is_Some (fst (run_loads sys ops st) !! k).
Proof.
  unfold run_loads. revert st.
  induction ops as [|op ops IH]; intros st Hk; [done|].
  cbn [foldl]. apply IH. by apply run_load_keep.
Qed.

Lemma run_loads_keep_witness :
  is_Some
    (fst (run_loads Demo.sys
            [loadDirectory "profiles"; loadOne "nowhere.yaml";
             loadMulti "models/ggml.bin.yaml"; loadDirectory "models"]
            (Demo.roomy_store, Demo.roomy_heap)) !! "vicuna").
Proof.
  apply (run_loads_keep Demo.sys).
  exists Demo.roomy_config. reflexivity.
Defined.

(** X12: a load that returns an error has changed nothing: the Store and the
    heap are as before. The error of [loadOne] and [loadMulti] is the cause
    wrapped twice, first as "cannot read config file" or "cannot unmarshal
    config file" and then once more as "cannot read config file"; the error
    of [loadDirectory] is the one of the directory listing, as it came. *)
Theorem load_failure_atomic (sys : System) (cm : gmap string Config.t)
    (h : gmap nat (list string)) (file : string) (err : error) :
  (fst (fst (LoadConfigFile sys cm h file)) = Some err ->
   LoadConfigFile sys cm h file = (Some err, cm, h)
   /\ exists inner cause,
        err = Wrapped "cannot read config file" (Wrapped inner cause)
        /\ (inner = "cannot read config file"
            \/ inner = "cannot unmarshal config file"))
  /\ (fst (fst (LoadConfig sys cm h file)) = Fail err ->
      LoadConfig sys cm h file = (Fail err, cm, h)
      /\ exists inner cause,
           err = Wrapped "cannot read config file" (Wrapped inner cause)
           /\ (inner = "cannot read config file"
               \/ inner = "cannot unmarshal config file"))
  /\ (fst (fst (LoadConfigs sys cm h file)) = Some err ->
      LoadConfigs sys cm h file = (Some err, cm, h)
      /\ ioutil_ReadDir sys file = Failure err).
Proof.
  split; [|split].
  - unfold LoadConfigFile, ReadConfig.
    destruct (os_ReadFile sys file) as [f|cause]; cbn.
    + destruct (yaml_Unmarshal_Config sys f h) as [[c h']|cause]; cbn;
        [done|].
      intros [= <-]. split; [done|]. eauto.
    + intros [= <-]. split; [done|]. eauto.
  - unfold LoadConfig, ReadConfigFile.
    destruct (os_ReadFile sys file) as [f|cause]; cbn.
    + destruct (yaml_Unmarshal_ConfigFile sys f h) as [[configs h']|cause];
        cbn.
      * by destruct (LoadConfig_range_status configs cm) as [-> | ->].
      * intros [= <-]. split; [done|]. eauto.
    + intros [= <-]. split; [done|]. eauto.
  - unfold LoadConfigs.
    destruct (ioutil_ReadDir sys file) as [files|cause]; cbn; [done|].
    by intros [= <-].
Qed.

(** On the demo disk: a file that is not there, and a file that does not
    decode. *)
Lemma load_failure_atomic_witness :
  LoadConfigFile Demo.sys Demo.roomy_store Demo.roomy_heap "nowhere.yaml"
    = (Some (Wrapped "cannot read config file"
               (Wrapped "cannot read config file"
                  (Foreign "no such file or directory"))),
       Demo.roomy_store, Demo.roomy_heap)
  /\ LoadConfig Demo.sys Demo.roomy_store Demo.roomy_heap
       "models/ggml.bin.yaml"
     = (Fail (Wrapped "cannot read config file"
                (Wrapped "cannot unmarshal config file"
                   (Foreign "yaml: line 1: did not find expected node content"))),
        Demo.roomy_store, Demo.roomy_heap).
Proof.
  split.
  - apply (proj1 (load_failure_atomic Demo.sys Demo.roomy_store
                    Demo.roomy_heap "nowhere.yaml" _)).
    reflexivity.
  - apply (proj1 (proj2 (load_failure_atomic Demo.sys Demo.roomy_store
                           Demo.roomy_heap "models/ggml.bin.yaml" _))).
    reflexivity.
Defined.

Lemma LoadConfigs_steps_as_loadOnes (sys : System) (path : string)
    (files : list string) :
  forall st : gmap string Config.t * gmap nat (list string),
  foldl (LoadConfigs_step sys path) st files
  = foldl (run_load sys) st
      (map (fun name => loadOne (filepath_Join sys path name))
         (filter (fun name => GoStrings.Contains name ".yaml" = true) files)).
Proof.
  induction files as [|name files IH]; intros st; [done|].
  cbn [foldl]. rewrite filter_cons, IH.
  destruct (decide (GoStrings.Contains name ".yaml" = true)) as [Hc|Hc].
  - cbn [map foldl]. f_equal.
    unfold LoadConfigs_step, run_load, LoadConfigFile. rewrite Hc. cbn [negb].
    by destruct (ReadConfig sys _ (snd st)) as [[c h']|]; destruct st.
  - apply not_true_is_false in Hc.
    unfold LoadConfigs_step. by rewrite Hc.
Qed.

(** X13: [loadDirectory] on a directory that can be listed does what
    [loadOne] does, file after file in the order of the listing, on the
    entries whose name contains ".yaml", with the errors of the single loads
    dropped; the other entries are not looked at. *)
Theorem loadDirectory_as_loadOnes (sys : System)
    (cm : gmap string Config.t) (h : gmap nat (list string)) (path : string)
    (files : list string) :
  ioutil_ReadDir sys path = Success files ->
  let r := LoadConfigs sys cm h path in
  fst (fst r) = None
  /\ (snd (fst r), snd r)
     = run_loads sys
         (map (fun name => loadOne (filepath_Join sys path name))
            (filter (fun name => GoStrings.Contains name ".yaml" = true)
               files))
         (cm, h).
Proof.
  intros Hdir. cbv zeta. unfold LoadConfigs. rewrite Hdir. cbn [fst snd].
  split; [done|].
  unfold run_loads. rewrite <- LoadConfigs_steps_as_loadOnes.
  by destruct (foldl (LoadConfigs_step sys path) (cm, h) files).
Qed.

Lemma loadDirectory_as_loadOnes_witness :
  let r := LoadConfigs Demo.sys ∅ ∅ "models" in
  (snd (fst r), snd r)
  = run_loads Demo.sys
      [loadOne "models/anon.yaml"; loadOne "models/ggml.bin.yaml";
       loadOne "models/gpt4all.yaml"] (∅, ∅).
Proof.
  apply (loadDirectory_as_loadOnes Demo.sys ∅ ∅ "models"
           ["anon.yaml"; "ggml.bin"; "ggml.bin.yaml"; "gpt4all";
            "gpt4all.yaml"] eq_refl).
Defined.

(** ** Strings *)

Section StringFacts.

Lemma append_cons (x : ascii) (a b : string) :
  String x a +:+ b = String x (a +:+ b).
Proof. reflexivity. Qed.

Lemma append_nil_l (s : string) : "" +:+ s = s.
Proof. reflexivity. Qed.

Lemma append_nil_r (s : string) : s +:+ "" = s.
Proof.
  induction s as [|a s IH]; [done|]. by rewrite append_cons, IH.
Qed.

Lemma append_assoc (a b c : string) : (a +:+ b) +:+ c = a +:+ (b +:+ c).
Proof.
  induction a as [|x a IH]; [done|]. by rewrite !append_cons, IH.
Qed.

Lemma length_append (a b : string) :
  String.length (a +:+ b) = String.length a + String.length b.
Proof.
  induction a as [|x a IH]; [done|]. rewrite append_cons. cbn. by rewrite IH.
Qed.

Lemma list_of_append (a b : string) :
  list_ascii_of_string (a +:+ b)
  = list_ascii_of_string a ++ list_ascii_of_string b.
Proof.
  induction a as [|x a IH]; [done|]. rewrite append_cons. cbn. by rewrite IH.
Qed.

Lemma string_of_app (l k : list ascii) :
  string_of_list_ascii (l ++ k)
  = string_of_list_ascii l +:+ string_of_list_ascii k.
Proof.
  induction l as [|x l IH]; [done|]. cbn. by rewrite append_cons, IH.
Qed.

Lemma rev_string_append (a b : string) :
  GoStrings.rev_string (a +:+ b)
  = GoStrings.rev_string b +:+ GoStrings.rev_string a.
Proof.
  unfold GoStrings.rev_string.
  by rewrite list_of_append, rev_app_distr, string_of_app.
Qed.

Lemma rev_string_involutive (s : string) :
  GoStrings.rev_string (GoStrings.rev_string s) = s.
Proof.
  unfold GoStrings.rev_string.
  by rewrite list_ascii_of_string_of_list_ascii, rev_involutive,
    string_of_list_ascii_of_string.
Qed.

Lemma length_rev_string (s : string) :
  String.length (GoStrings.rev_string s) = String.length s.
Proof.
  rewrite <- (string_of_list_ascii_of_string s) at 2.
  unfold GoStrings.rev_string.
  generalize (list_ascii_of_string s). intros l.
  assert (Hlen : forall k, String.length (string_of_list_ascii k) = length k).
  { induction k as [|x k IH]; [done|]. cbn. by rewrite IH. }
  by rewrite !Hlen, length_rev.
Qed.

(** [strip_prefix p s] takes [p] off the front of [s], when it is there. *)
Lemma strip_prefix_spec (p s r : string) :
  GoStrings.strip_prefix p s = Some r <-> s = p +:+ r.
Proof.
  revert s. induction p as [|a p IH]; intros s.
  - rewrite append_nil_l. cbn. split; [by intros [= ->] | by intros ->].
  - rewrite append_cons. cbn. destruct s as [|b s]; [done|].
    destruct (Ascii.eqb_spec a b) as [->|Hne].
    + rewrite IH. split; [by intros -> | by intros [= ->]].
    + split; [done | intros [= ? ?]; done].
Qed.

Lemma strip_prefix_append (p s r x : string) :
  GoStrings.strip_prefix p s = Some r ->
  GoStrings.strip_prefix p (s +:+ x) = Some (r +:+ x).
Proof.
  rewrite !strip_prefix_spec. intros ->. apply append_assoc.
Qed.

End StringFacts.

(** X14: [strings.Contains] finds [substr] wherever it lies in [s]; so a
    directory entry counts as a profile file for [loadDirectory] exactly
    when ".yaml" occurs somewhere in its name, not only at its end, and
    every other entry leaves the Store and the heap as they are. *)
Theorem Contains_substring (s substr : string) :
  (GoStrings.Contains s substr = true
   <-> exists a b, s = a +:+ substr +:+ b)
  /\ (forall sys path st,
        substr = ".yaml" ->
        ~ (exists a b, s = a +:+ ".yaml" +:+ b) ->
        LoadConfigs_step sys path st s = st).
Proof.
  assert (Hspec : forall s,
            GoStrings.Contains s substr = true
            <-> exists a b, s = a +:+ substr +:+ b).
  { clear s. induction s as [|c s IH].
    - cbn. unfold GoStrings.HasPrefix. rewrite orb_false_r. split.
      + destruct (GoStrings.strip_prefix substr "") as [r|] eqn:Hp; [|done].
        intros _. apply strip_prefix_spec in Hp. by exists "", r.
      + intros (a & b & Heq). destruct a; [|done].
        rewrite append_nil_l in Heq.
        apply strip_prefix_spec in Heq. by rewrite Heq.
    - cbn [GoStrings.Contains]. rewrite orb_true_iff, IH.
      unfold GoStrings.HasPrefix. split.
      + intros [Hp | (a & b & ->)].
        * destruct (GoStrings.strip_prefix substr (String c s)) as [r|] eqn:Hr;
            [|done].
          apply strip_prefix_spec in Hr. by exists "", r.
        * by exists (String c a), b.
      + intros (a & b & Heq). destruct a as [|x a].
        * left. rewrite append_nil_l in Heq.
          apply strip_prefix_spec in Heq. by rewrite Heq.
        * right. rewrite append_cons in Heq. injection Heq as -> ->.
          by exists a, b. }
  split; [apply Hspec|].
  intros sys path st -> Hno. unfold LoadConfigs_step.
  destruct (GoStrings.Contains s ".yaml") eqn:Hc; [|done].
  exfalso. apply Hno. by apply Hspec.
Qed.

Lemma Contains_substring_witness :
  GoStrings.Contains "gpt4all.yaml.bak" ".yaml" = true
  /\ LoadConfigs_step Demo.sys "models" (∅, ∅) "gpt4all.yml" = (∅, ∅).
Proof.
  split.
  - apply (proj1 (Contains_substring "gpt4all.yaml.bak" ".yaml")).
    by exists "gpt4all", ".bak".
  - apply (proj2 (Contains_substring "gpt4all.yml" ".yaml")); [done|].
    intros Hyes.
    apply (proj1 (Contains_substring "gpt4all.yml" ".yaml")) in Hyes.
    discriminate Hyes.
Defined.

(** ** The bearer value *)

Lemma TrimLeft_head (cutset s : string) (a : ascii) (rest : string) :
  GoStrings.TrimLeft s cutset = String a rest ->
  GoStrings.mem_byte a cutset = false.
Proof.
  induction s as [|b s IH]; cbn; [done|].
  destruct (GoStrings.mem_byte b cutset) eqn:Hb; [done|].
  by intros [= <- _].
Qed.

(** X15: what line 160 makes of the authorization header: the scheme word
    "Bearer " is taken off when it is there and need not be there; the value
    never begins with one of the bytes of "Bearer "; and a model name that
    does not begin with such a byte comes through as it is, with the scheme
    word before it or without. *)
Theorem bearer_value (authorization m : string) :
  (forall a rest,
      bearerOf authorization = String a rest ->
      GoStrings.mem_byte a "Bearer " = false)
  /\ bearerOf ("Bearer " +:+ authorization) = bearerOf authorization
  /\ ((forall a rest, m = String a rest ->
                      GoStrings.mem_byte a "Bearer " = false) ->
      bearerOf ("Bearer " +:+ m) = m /\ bearerOf m = m).
Proof.
  split; [|split].
  - intros a rest. apply TrimLeft_head.
  - reflexivity.
  - intros Hhead.
    assert (Hm : bearerOf m = m).
    { unfold bearerOf. destruct m as [|a rest]; [done|].
      cbn [GoStrings.TrimLeft]. by rewrite (Hhead a rest eq_refl). }
    split; [exact Hm | exact Hm].
Qed.

Lemma bearer_value_witness :
  bearerOf ("Bearer " +:+ "gpt4all") = "gpt4all"
  /\ bearerOf "gpt4all" = "gpt4all".
Proof.
  apply (bearer_value "" "gpt4all").
  intros a rest [= <- _]. reflexivity.
Defined.

(** ** The text to predict from, in chat mode *)

Lemma concat_app (sep : string) (l1 l2 : list string) :
  l1 <> [] -> l2 <> [] ->
  String.concat sep (l1 ++ l2)
  = String.concat sep l1 +:+ sep +:+ String.concat sep l2.
Proof.
  intros H1 H2. induction l1 as [|x l1 IH]; [done|].
  destruct l1 as [|y l1].
  - destruct l2 as [|z l2]; [done|]. reflexivity.
  - change (String.concat sep ((x :: y :: l1) ++ l2))
      with (x +:+ sep +:+ String.concat sep ((y :: l1) ++ l2)).
    rewrite IH by done.
    change (String.concat sep (x :: y :: l1))
      with (x +:+ sep +:+ String.concat sep (y :: l1)).
    by rewrite !append_assoc.
Qed.

(** X16: in chat mode the prompt is made from the messages alone: one line
    per message, the label, a space and the content, where the label is what
    the role table of the configuration gives for the role, and the role
    itself when the table has nothing or the empty string for it. The lines
    are joined with line feeds, so the prompt of a conversation is the
    prompt of its beginning, a line feed, and the prompt of its end; without
    messages it is empty. *)
Theorem chat_input (config : Config.t) (input input1 input2 : OpenAIRequest.t) :
  (forall i,
      chatLine config i
      = (match Config.Roles config !! Role i with
         | Some label => if String.eqb label "" then Role i else label
         | None => Role i
         end) +:+ " " +:+ Content i)
  /\ (OpenAIRequest.Messages input = [] -> buildInput true config input = "")
  /\ (OpenAIRequest.Messages input
      = OpenAIRequest.Messages input1 ++ OpenAIRequest.Messages input2 ->
      OpenAIRequest.Messages input1 <> [] ->
      OpenAIRequest.Messages input2 <> [] ->
      buildInput true config input
      = buildInput true config input1 +:+ LF
        +:+ buildInput true config input2).
Proof.
  split; [|split].
  - intros i. unfold chatLine.
    destruct (Config.Roles config !! Role i) as [label|]; cbn; [done|].
    reflexivity.
  - intros Hnil. unfold buildInput. by rewrite Hnil.
  - intros Happ H1 H2. unfold buildInput, GoStrings.Join.
    rewrite Happ, map_app. apply concat_app.
    + by destruct (OpenAIRequest.Messages input1).
    + by destruct (OpenAIRequest.Messages input2).
Qed.

(** With the role "user" shown as "### Human:" and "system" mapped to the
    empty string. *)
Lemma chat_input_witness :
  buildInput true Site.chat_config
    (Site.chat_of [Site.system_message; Site.user_message])
  = "system Be brief." +:+ LF +:+ "### Human: Hi".
Proof.
  destruct (chat_input Site.chat_config
              (Site.chat_of [Site.system_message; Site.user_message])
              (Site.chat_of [Site.system_message])
              (Site.chat_of [Site.user_message])) as (_ & _ & Hjoin).
  rewrite Hjoin; [|reflexivity|discriminate|discriminate].
  vm_compute. reflexivity.
Defined.

(** ** White space after the trim rules *)

Section TrimFacts.

Variable ps : list string.
Hypothesis Hps : Forall (fun p => p <> "") ps.

Lemma strip_any_spec (s r : string) :
  GoStrings.strip_any ps s = Some r -> exists p, p ∈ ps /\ s = p +:+ r.
Proof.
  clear Hps. induction ps as [|p ps' IH]; cbn; [done|].
  destruct (GoStrings.strip_prefix p s) as [r'|] eqn:Hp.
  - intros [= <-]. apply strip_prefix_spec in Hp. exists p.
    split; [by left | done].
  - intros Hr. destruct (IH Hr) as (q & Hin & Heq). exists q.
    split; [by right | done].
Qed.

Lemma strip_any_shorter (s r : string) :
  GoStrings.strip_any ps s = Some r -> String.length r < String.length s.
Proof.
  intros Hr. destruct (strip_any_spec s r Hr) as (p & Hin & ->).
  rewrite length_append.
  assert (Hp : p <> "") by (by apply (proj1 (Forall_forall _ _) Hps)).
  destruct p; [done|]. cbn. lia.
Qed.

Lemma strip_any_append (r x : string) :
  GoStrings.strip_any ps (r +:+ x) = None -> GoStrings.strip_any ps r = None.
Proof.
  clear Hps. induction ps as [|p ps' IH]; cbn; [done|].
  destruct (GoStrings.strip_prefix p r) as [r'|] eqn:Hp.
  - by rewrite (strip_prefix_append p r r' x Hp).
  - destruct (GoStrings.strip_prefix p (r +:+ x)); [done|]. apply IH.
Qed.

(** With fuel for every byte nothing is left to strip. *)
Lemma trim_left_of_done (fuel : nat) :
  forall s, String.length s <= fuel ->
  GoStrings.strip_any ps (GoStrings.trim_left_of ps fuel s) = None.
Proof.
  induction fuel as [|fuel IH]; intros s Hlen; cbn [GoStrings.trim_left_of].
  - destruct s; [|cbn in Hlen; lia].
    destruct (GoStrings.strip_any ps "") as [r|] eqn:Hr; [|done].
    apply strip_any_shorter in Hr. cbn in Hr. lia.
  - destruct (GoStrings.strip_any ps s) as [s'|] eqn:Hs; [|done].
    apply IH. apply strip_any_shorter in Hs. lia.
Qed.

(** What is left is the end of the text. *)
Lemma trim_left_of_suffix (fuel : nat) :
  forall s, exists removed, s = removed +:+ GoStrings.trim_left_of ps fuel s.
Proof.
  induction fuel as [|fuel IH]; intros s; cbn [GoStrings.trim_left_of].
  - by exists "".
  - destruct (GoStrings.strip_any ps s) as [s'|] eqn:Hs; [|by exists ""].
    destruct (strip_any_spec s s' Hs) as (p & _ & ->).
    destruct (IH s') as (removed & Heq). exists (p +:+ removed).
    by rewrite append_assoc, <- Heq.
Qed.

End TrimFacts.

Lemma space_encodings_nonempty :
  Forall (fun p => p <> "") GoStrings.space_encodings.
Proof.
  unfold GoStrings.space_encodings. cbn.
  repeat (apply Forall_cons; split; [discriminate|]). apply Forall_nil_2.
Qed.

Lemma rev_encodings_nonempty :
  Forall (fun p => p <> "")
    (map GoStrings.rev_string GoStrings.space_encodings).
Proof.
  apply Forall_fmap.
  eapply Forall_impl; [apply space_encodings_nonempty|].
  intros p Hp Hrev. apply Hp.
  assert (Hlen : String.length p = 0)
    by (by rewrite <- length_rev_string, Hrev).
  by destruct p.
Qed.

(** [strings.TrimSpace] leaves no white space at either end. *)
Lemma TrimSpace_trimmed (s : string) :
  leading_space (GoStrings.TrimSpace s) = false
  /\ trailing_space (GoStrings.TrimSpace s) = false.
Proof.
  unfold GoStrings.TrimSpace.
  set (t := GoStrings.trim_left_space s).
  assert (Ht : GoStrings.strip_any GoStrings.space_encodings t = None).
  { apply trim_left_of_done; [apply space_encodings_nonempty | done]. }
  unfold GoStrings.trim_right_space.
  set (r := GoStrings.trim_left_of _ (String.length t)
              (GoStrings.rev_string t)).
  assert (Hr : GoStrings.strip_any
                 (map GoStrings.rev_string GoStrings.space_encodings) r
               = None).
  { apply trim_left_of_done; [apply rev_encodings_nonempty|].
    by rewrite length_rev_string. }
  split.
  - unfold leading_space.
    destruct (trim_left_of_suffix
                (map GoStrings.rev_string GoStrings.space_encodings)
                (String.length t) (GoStrings.rev_string t))
      as (removed & Heq).
    fold r in Heq.
    assert (Hsplit : t = GoStrings.rev_string r
                         +:+ GoStrings.rev_string removed).
    { rewrite <- rev_string_append, <- Heq.
      by rewrite rev_string_involutive. }
    rewrite Hsplit in Ht.
    by rewrite (strip_any_append _ _ _ Ht).
  - unfold trailing_space. by rewrite rev_string_involutive, Hr.
Qed.

(** X17: the white space around a sample goes only through a trim rule: when
    the profile has at least one trim prefix (an empty one will do), the
    text of every choice has no white space at either end; when it has none,
    the text is the sample after the cut strings, white space and all. *)
Theorem choice_text_trimmed {RE : Type} (regexp : Regexp RE)
    (config : Config.t) (predInput : string) (cache : gmap string RE)
    (prediction text : string) :
  fst (postProcess regexp config predInput cache prediction) = Some text ->
  (Config.TrimSpace config <> [] ->
   leading_space text = false /\ trailing_space text = false)
  /\ (Config.TrimSpace config = [] ->
      fst (cutAll regexp (Config.Cutstrings config) cache
             (if Config.Echo config then predInput +:+ prediction
              else prediction))
      = Some text).
Proof.
  unfold postProcess, cleanup.
  destruct (cutAll regexp (Config.Cutstrings config) cache _)
    as [[p|] cache']; cbn [fst]; [|done].
  intros [= <-]. split.
  - intros Hrules.
    destruct (Config.TrimSpace config) as [|c cs] using rev_ind; [done|].
    unfold trimAll. rewrite foldl_snoc. apply TrimSpace_trimmed.
  - intros ->. reflexivity.
Qed.

(** The sample "  Hello world " with the one trim rule of the echoing
    profile, and with none. *)
Lemma choice_text_trimmed_witness :
  fst (postProcess Demo.literal_regexp Demo.echo_config "" ∅
         "  Hello world ") = Some "world"
  /\ leading_space "world" = false
  /\ fst (postProcess Demo.literal_regexp
            (Config.of_request (defaultRequest "ggml.bin")) "" ∅
            "  Hello world ") = Some "  Hello world ".
Proof.
  assert (Hecho : fst (postProcess Demo.literal_regexp Demo.echo_config "" ∅
                         "  Hello world ") = Some "world")
    by (vm_compute; reflexivity).
  assert (Hplain : fst (postProcess Demo.literal_regexp
                          (Config.of_request (defaultRequest "ggml.bin")) ""
                          ∅ "  Hello world ") = Some "  Hello world ")
    by (vm_compute; reflexivity).
  split; [exact Hecho|]. split.
  - apply (choice_text_trimmed Demo.literal_regexp Demo.echo_config "" ∅
             "  Hello world " "world" Hecho).
    discriminate.
  - exact (proj2 (choice_text_trimmed Demo.literal_regexp
                    (Config.of_request (defaultRequest "ggml.bin")) "" ∅
                    "  Hello world " "  Hello world " Hplain) eq_refl).
Defined.

(** ** The companion file before the lookup *)

(** X18: when the companion file of the model decodes and carries, before
    any nil entry of its list, a profile under the model's name, the Store
    holds the last such profile under that name after the request, whatever
    it held before: the file is read again on every request.  When the list
    has no nil entry the request resolves from that profile; when it has
    one the request panics. *)
Theorem companion_refreshes {RE St : Type} (sys : System)
    (loader : ModelLoader) (spare : nat -> nat) (threads ctx : Z)
    (f16 : bool) (input : OpenAIRequest.t) (authorization : string)
    (w : World RE St) (modelFile : string)
    (configs : list (option Config.t))
    (h' : gmap nat (list string)) (profile : Config.t) :
  selectModel loader input authorization = Success modelFile ->
  os_Stat sys (filepath_Join sys (ModelPath loader) (modelFile +:+ ".yaml"))
    = true ->
  ReadConfigFile sys
    (filepath_Join sys (ModelPath loader) (modelFile +:+ ".yaml")) (heap w)
    = Success (configs, h') ->
  last (filter (fun cc => Config.Name cc = modelFile) (loaded configs))
    = Some profile ->
  let r := resolveConfig sys loader spare threads ctx f16 input
             authorization w in
  cm (snd r) !! modelFile = Some profile
  /\ (None ∉ configs ->
      fst r
      = Ok (forceServerValues threads ctx f16
              (fst (updateConfig spare profile h' input))))
  /\ (None ∈ configs -> fst r = Panic).
Proof.
  intros Hsel Hstat Hread Hlast. cbv zeta.
  unfold resolveConfig, loadCompanion, LoadConfig.
  rewrite Hsel, Hstat, Hread. cbn [fst snd].
  assert (Hlook : snd (LoadConfig_range (cm w) configs) !! modelFile
                  = Some profile).
  { by rewrite LoadConfig_range_store, inserts_lookup, Hlast. }
  destruct (fst (LoadConfig_range (cm w) configs)) as [u|err|] eqn:Hrange.
  - cbn [cm heap]. unfold mergeConfig, startConfig. rewrite Hlook.
    destruct (updateConfig spare profile h' input) as [merged h''].
    cbn [fst snd cm]. split; [done|]. split; [done|].
    intros Hnil. apply (LoadConfig_range_nil configs (cm w)) in Hnil.
    by rewrite Hnil in Hrange.
  - by destruct (LoadConfig_range_status configs (cm w)) as [Hs|Hs];
      rewrite Hs in Hrange.
  - cbn [fst snd cm]. split; [done|]. split; [|done].
    intros Hfull. apply (LoadConfig_range_full configs (cm w)) in Hfull.
    by rewrite Hfull in Hrange.
Qed.

(** On the demo installation the Store has a "gpt4all" without stop words
    and the companion file "models/gpt4all.yaml" one with the stop word
    "###"; the request resolves with "###".  The companion file
    "models/vicuna.yaml" carries a "vicuna" with top-k 7 and then a nil
    entry: the request panics, and the Store has that "vicuna" in place of
    the one with top-k 40. *)
Lemma companion_refreshes_witness :
  let r := resolveConfig Demo.sys Demo.loader Demo.spare 0 0 false
             (Demo.request "gpt4all" "" 1) "" Site.world in
  let profile := fst (Demo.named "gpt4all" 0 ["###"] Demo.roomy_heap) in
  let r' := resolveConfig Site.multi_sys Demo.loader Demo.spare 0 0 false
              (Demo.request "vicuna" "" 1) "" Demo.roomy_world in
  (Slice.elems Demo.roomy_heap
     (Config.StopWords (fst (Demo.named "gpt4all" 0 [] ∅))) = []
   /\ cm (snd r) !! "gpt4all" = Some profile
   /\ Slice.elems (heap (snd r)) (Config.StopWords profile) = ["###"]
   /\ exists config,
        fst r = Ok config
        /\ Slice.elems (heap (snd r)) (Config.StopWords config) = ["###"])
  /\ (Config.TopK <$> cm Demo.roomy_world !! "vicuna" = Some 40%Z
      /\ cm (snd r') !! "vicuna"
         = Some (fst (Demo.named "vicuna" 7 [] Demo.roomy_heap))
      /\ fst r' = Panic).
Proof.
  cbv zeta. split.
  - destruct (companion_refreshes Demo.sys Demo.loader Demo.spare 0 0 false
                (Demo.request "gpt4all" "" 1) "" Site.world "gpt4all"
                [Some (fst (Demo.named "gpt4all" 0 ["###"] Demo.roomy_heap))]
                (snd (Demo.named "gpt4all" 0 ["###"] Demo.roomy_heap))
                (fst (Demo.named "gpt4all" 0 ["###"] Demo.roomy_heap)))
      as (Hlook & Hok & _).
    + reflexivity.
    + reflexivity.
    + reflexivity.
    + vm_compute. reflexivity.
    + split; [vm_compute; reflexivity|]. split; [exact Hlook|].
      split; [vm_compute; reflexivity|].
      eexists. split.
      * apply Hok. intros Hin.
        apply elem_of_cons in Hin as [Hin|Hin]; [done|].
        by apply elem_of_nil in Hin.
      * vm_compute. reflexivity.
  - destruct (companion_refreshes Site.multi_sys Demo.loader Demo.spare 0 0
                false (Demo.request "vicuna" "" 1) "" Demo.roomy_world
                "vicuna"
                [Some (fst (Demo.named "vicuna" 7 [] Demo.roomy_heap)); None]
                Demo.roomy_heap
                (fst (Demo.named "vicuna" 7 [] Demo.roomy_heap)))
      as (Hlook & _ & Hpanic).
    + reflexivity.
    + reflexivity.
    + reflexivity.
    + vm_compute. reflexivity.
    + split; [vm_compute; reflexivity|]. split; [exact Hlook|].
      apply Hpanic. apply list_elem_of_further, list_elem_of_here.
Defined.

(** ** The fallback model and the listing *)

(** X19: the model a request without a model and without a usable bearer
    value runs on is the first entry of the answer of [listModels]. The
    fallback takes the models the loader returns even when the loader
    reports an error next to them, where [listModels] fails. *)
Theorem fallback_matches_listing (loader : ModelLoader)
    (input : OpenAIRequest.t) (authorization : string)
    (order : list string) (m : string) (rest : list string) :
  fst (ListModels loader) = m :: rest ->
  OpenAIRequest.Model input = "" ->
  nonempty (bearerOf authorization)
  && ExistsInModelPath loader (bearerOf authorization) = false ->
  selectModel loader input authorization = Success m
  /\ match snd (ListModels loader) with
     | None =>
         exists r,
           listModels loader order = Success r
           /\ head (ids (ModelList.Data r)) = Some m
     | Some err => listModels loader order = Failure err
     end.
Proof.
  intros Hlist Hmodel Hbearer. split.
  - unfold selectModel. fold (bearerOf authorization).
    rewrite Hbearer, Hmodel, Hlist. reflexivity.
  - destruct (ListModels loader) as [models [err|]] eqn:Hl; cbn [fst snd] in *.
    + unfold listModels. by rewrite Hl.
    + destruct (listModels_ids loader order models Hl)
        as (r & Hr & _ & Hdata).
      exists r. split; [done|].
      unfold ids. rewrite Hdata, Hlist. reflexivity.
Qed.

Lemma fallback_matches_listing_witness :
  selectModel Demo.loader (Demo.request "" "" 1) "" = Success "ggml.bin"
  /\ exists r,
       listModels Demo.loader Site.order = Success r
       /\ head (ids (ModelList.Data r)) = Some "ggml.bin".
Proof.
  apply (fallback_matches_listing Demo.loader (Demo.request "" "" 1) ""
           Site.order "ggml.bin" ["gpt4all"]); reflexivity.
Defined.

(** ** The heap of stop lists over a merge *)

(** [append] keeps every well-formed slice header well formed. *)
Lemma append_keeps_wf (spare : nat -> nat) (h : gmap nat (list string))
    (s t : Slice.t) (v : string) :
  Slice.wf h t -> Slice.wf (snd (Slice.append spare h s v)) t.
Proof.
  intros [Hle Hlen]. unfold Slice.append, Slice.wf, Slice.backing in *.
  destruct (Slice.len s <? Slice.cap s); cbn [snd]; (split; [done|]).
  - rewrite lookup_insert. case_decide as Heq; [|done].
    cbn. rewrite length_insert. by rewrite Heq.
  - rewrite lookup_insert. case_decide as Heq; [|done].
    assert (Hnone : h !! Slice.arr t = None).
    { apply not_elem_of_dom. rewrite <- Heq. apply is_fresh. }
    rewrite Hnone in Hlen. cbn in *. lia.
Qed.

(** X20: resolving a request keeps the slices of the heap intact: a slice
    header that was well formed before the merge (its backing array there
    with room for its capacity) is well formed after it, whether the stop
    value was written in place or into a new array, and so is the stop list
    of the Resolved Configuration when the one of the starting profile was. *)
Theorem merge_keeps_wf (spare : nat -> nat) (threads ctx : Z) (f16 : bool)
    (store : gmap string Config.t) (h : gmap nat (list string))
    (modelFile : string) (input : OpenAIRequest.t) (t : Slice.t) :
  let r := mergeConfig spare threads ctx f16 store h modelFile input in
  Slice.wf h t ->
  Slice.wf (snd r) t
  /\ (Slice.wf h (Config.StopWords (startConfig store modelFile)) ->
      Slice.wf (snd r) (Config.StopWords (fst r))).
Proof.
  cbv zeta. intros Hwf.
  rewrite mergeConfig_heap. unfold mergeConfig.
  pose proof (updateConfig_StopWords spare (startConfig store modelFile) h
                input) as Hsw.
  cbv zeta in Hsw.
  destruct (updateConfig spare (startConfig store modelFile) h input)
    as [merged h1].
  cbn [fst snd] in *. rewrite forceServerValues_StopWords.
  destruct (nonempty (OpenAIRequest.Stop input)).
  - split; [by apply append_keeps_wf|].
    intros Hstart.
    destruct (append_elems spare h _ (OpenAIRequest.Stop input) Hstart)
      as [_ Hnew].
    cbv zeta in Hnew. rewrite <- Hsw in Hnew. cbn [fst snd] in Hnew.
    rewrite <- Hsw. exact Hnew.
  - injection Hsw as -> ->. by split.
Qed.

Lemma merge_keeps_wf_witness :
  let r := mergeConfig Demo.spare 0 0 false Demo.roomy_store Demo.roomy_heap
             "vicuna" (Demo.request "vicuna" "User:" 1) in
  Slice.wf (snd r) (Config.StopWords Demo.roomy_config)
  /\ Slice.wf (snd r) (Config.StopWords (fst r)).
Proof.
  assert (Hwf : Slice.wf Demo.roomy_heap (Config.StopWords Demo.roomy_config))
    by (split; vm_compute; lia).
  destruct (merge_keeps_wf Demo.spare 0 0 false Demo.roomy_store
              Demo.roomy_heap "vicuna" (Demo.request "vicuna" "User:" 1)
              (Config.StopWords Demo.roomy_config) Hwf) as [Hkeep Hnew].
  split; [exact Hkeep | exact (Hnew Hwf)].
Defined.
